(** * createTileMapServiceImageryProvider: a shallow embedding

    The development follows [Source/Scene/createTileMapServiceImageryProvider.js].
    JavaScript numbers are IEEE-754 binary64 values, modelled by Rocq's
    primitive floats; [undefined]/[null] are modelled by [None]; the
    [Rectangle] objects live in a store so that aliasing and in-place
    mutation are visible; an exception is a result of the computation. *)

From Stdlib Require Import Floats.PrimFloat Floats.FloatOps Floats.SpecFloat.
From Stdlib Require Import Floats.FloatAxioms.
From Stdlib Require Import ZArith Strings.Ascii Strings.String.
From stdpp Require Import base option list strings.

Open Scope string_scope.

(** ** JavaScript values *)

Abbreviation Number := float.

(** [defaultValue(a, b)]: [a] unless it is undefined or null. *)
Definition defaultValue {A} (a : option A) (b : A) : A :=
  match a with Some v => v | None => b end.

(** String concatenation with a value that may be [null]. *)
Definition toString (s : option string) : string :=
  match s with Some v => v | None => "null" end.

(** [a > b] on numbers. *)
Definition gtb (a b : Number) : bool := PrimFloat.ltb b a.

(** ** Regular expressions [/pattern/i] with a literal ASCII pattern *)

Definition lowerCase (c : ascii) : ascii :=
  let n := nat_of_ascii c in
  if (65 <=? n)%nat && (n <=? 90)%nat then ascii_of_nat (n + 32) else c.

Fixpoint matchesHere (pattern s : string) : bool :=
  match pattern, s with
  | EmptyString, _ => true
  | String _ _, EmptyString => false
  | String p pattern', String c s' =>
      Ascii.eqb (lowerCase p) (lowerCase c) && matchesHere pattern' s'
  end.

(** [/pattern/i.test(s)]: the pattern occurs somewhere in [s], letter case
    ignored. *)
Fixpoint regexTest (pattern s : string) : bool :=
  matchesHere pattern s ||
  match s with
  | EmptyString => false
  | String _ s' => regexTest pattern s'
  end.

(** ** The parsed XML tree *)

#[warnings="-register-all"]
Inductive Node : Type :=
  mkNode (name : string) (attributes : list (string * string))
         (text : string) (children : list Node).

Definition nodeName (n : Node) : string :=
  match n with mkNode name _ _ _ => name end.
Definition attributes (n : Node) : list (string * string) :=
  match n with mkNode _ a _ _ => a end.
Definition textContent (n : Node) : string :=
  match n with mkNode _ _ t _ => t end.
Definition childNodes (n : Node) : list Node :=
  match n with mkNode _ _ _ c => c end.

(** [node.getAttribute(name)]: the value, or [null] when there is none. *)
Fixpoint lookupAttribute (l : list (string * string)) (name : string)
  : option string :=
  match l with
  | [] => None
  | (k, v) :: l' => if String.eqb k name then Some v else lookupAttribute l' name
  end.

Definition getAttribute (n : Node) (name : string) : option string :=
  lookupAttribute (attributes n) name.

Record Document := { documentChildNodes : list Node }.

(** ** Geometry records of [Core] *)

Record Cartesian2 := { x : Number; y : Number }.
Record Cartographic := { longitude : Number; latitude : Number; height : Number }.
Record Rectangle := { west : Number; south : Number; east : Number; north : Number }.

(** A reference to a [Rectangle] object in the store. *)
Abbreviation ref := nat.

(** [Rectangle.southwest] and [Rectangle.northeast]. *)
Definition Rectangle_southwest (r : Rectangle) : Cartographic :=
  {| longitude := west r; latitude := south r; height := 0%float |}.
Definition Rectangle_northeast (r : Rectangle) : Cartographic :=
  {| longitude := east r; latitude := north r; height := 0%float |}.

(** A tiling scheme object, seen through the members the function uses:
    whether it is an instance of [GeographicTilingScheme], its [rectangle]
    (an object of the store), [projection.unproject], and
    [positionToTileXY], which gives [undefined] for a position it does not
    cover. *)
Record TilingScheme := {
  instanceofGeographic : bool;
  rectangleOf : ref;
  unproject : Cartesian2 -> Cartographic;
  positionToTileXY : Cartographic -> Number -> option Cartesian2
}.

(** What a tiling scheme constructor computes before the object exists:
    the value of its rectangle and its projection and tile arithmetic. *)
Record SchemeMath := {
  mathRectangle : Rectangle;
  mathUnproject : Cartesian2 -> Cartographic;
  mathPositionToTileXY : Cartographic -> Number -> option Cartesian2
}.

Record Proxy := { getURL : string -> string }.

(** ** Collaborators that are not part of this file

    The built-ins [parseInt(_, 10)] and [parseFloat] (applied to an attribute
    value, which may be [null]), [joinUrls], [Cartographic.fromDegrees], and
    the arithmetic of the two tiling scheme classes. *)
Class Collaborators := {
  Ellipsoid : Type;
  Credit : Type;
  TileDiscardPolicy : Type;
  parseInt : option string -> Number;
  parseFloat : option string -> Number;
  joinUrls : string -> string -> string;
  Cartographic_fromDegrees : Number -> Number -> Cartographic;
  GeographicMath : option Ellipsoid -> SchemeMath;
  WebMercatorMath : option Ellipsoid -> SchemeMath
}.

(** ** Results of a computation *)

Inductive Exception :=
  | TypeError
  | DeveloperError (message : string).

Inductive Outcome (A : Type) :=
  | Returned (a : A)
  | Thrown (e : Exception).
Arguments Returned {A} a.
Arguments Thrown {A} e.

Section Provider.
Context `{Collaborators}.

(** ** Options, configuration and the state of one invocation *)

(** The [options] object; an absent property is [None].  [rectangle] is a
    reference: the caller's own [Rectangle] object. *)
Record Options := {
  url : option string;
  fileExtension : option string;
  proxy : option Proxy;
  credit : option Credit;
  minimumLevel : option Number;
  maximumLevel : option Number;
  rectangle : option ref;
  tilingScheme : option TilingScheme;
  ellipsoid : option Ellipsoid;
  tileWidth : option Number;
  tileHeight : option Number;
  flipXY : option bool;
  tileDiscardPolicy : option TileDiscardPolicy
}.

(** The object handed to [deferred.resolve]. *)
Record Configuration := {
  cfgUrl : string;
  cfgTilingScheme : TilingScheme;
  cfgRectangle : ref;
  cfgTileWidth : Number;
  cfgTileHeight : Number;
  cfgMinimumLevel : Number;
  cfgMaximumLevel : option Number;
  cfgProxy : option Proxy;
  cfgTileDiscardPolicy : option TileDiscardPolicy;
  cfgCredit : option Credit
}.

(** A call of [deferred.resolve] or of [deferred.reject(new RuntimeError(_))]. *)
Inductive Completion :=
  | Resolved (c : Configuration)
  | Rejected (message : string).

Record TileProviderError := { errorMessage : string; retry : bool }.

(** The state an invocation works on: the store of [Rectangle] objects, the
    calls made on [deferred] so far (oldest first), the closure variable
    [metadataError], the messages raised on the provider's [errorEvent], and
    the resource URLs requested. *)
Record World := {
  store : list Rectangle;
  deferred : list Completion;
  metadataError : option TileProviderError;
  errorEvent : list string;
  requested : list string
}.

Definition initialWorld (objects : list Rectangle) : World :=
  {| store := objects; deferred := []; metadataError := None;
     errorEvent := []; requested := [] |}.

(** ** Computations: state passing with exceptions *)

Definition Js (A : Type) : Type := World -> Outcome A * World.

Definition ret {A} (a : A) : Js A := fun w => (Returned a, w).
Definition throw {A} (e : Exception) : Js A := fun w => (Thrown e, w).
Definition bind {A B} (m : Js A) (k : A -> Js B) : Js B :=
  fun w => match m w with
           | (Returned a, w') => k a w'
           | (Thrown e, w') => (Thrown e, w')
           end.

(** Reading a member of a value that may be [undefined]. *)
Definition member {A} (o : option A) : Js A :=
  match o with Some a => ret a | None => throw TypeError end.

Notation "v <- m ;; k" := (bind m (fun v => k))
  (at level 100, m at next level, right associativity).
Notation "m ;;; k" := (bind m (fun _ => k))
  (at level 100, right associativity).

(** *** The store of [Rectangle] objects *)

Definition withStore (w : World) (s : list Rectangle) : World :=
  {| store := s; deferred := deferred w; metadataError := metadataError w;
     errorEvent := errorEvent w; requested := requested w |}.

(** [new Rectangle(west, south, east, north)]: a fresh object. *)
Definition new_Rectangle (v : Rectangle) : Js ref :=
  fun w => (Returned (length (store w)), withStore w (store w ++ [v])).

(** Reading the object behind a reference. *)
Definition readRectangle (r : ref) : Js Rectangle :=
  fun w => match store w !! r with
           | Some v => (Returned v, w)
           | None => (Thrown TypeError, w)
           end.

(** Assigning to properties of the object behind a reference. *)
Definition writeRectangle (r : ref) (f : Rectangle -> Rectangle) : Js unit :=
  fun w => (Returned tt, withStore w (alter f r (store w))).

Definition setWest (v : Number) (r : Rectangle) : Rectangle :=
  {| west := v; south := south r; east := east r; north := north r |}.
Definition setEast (v : Number) (r : Rectangle) : Rectangle :=
  {| west := west r; south := south r; east := v; north := north r |}.
Definition setSouth (v : Number) (r : Rectangle) : Rectangle :=
  {| west := west r; south := v; east := east r; north := north r |}.
Definition setNorth (v : Number) (r : Rectangle) : Rectangle :=
  {| west := west r; south := south r; east := east r; north := v |}.

(** Modelled from the spec: [Rectangle.clone] of [Core/Rectangle] is not
    among the sources.  It gives [undefined] for an undefined argument (the
    test on line 170 relies on it) and otherwise a new [Rectangle] object
    with the same four edges. *)
Definition Rectangle_clone (rectangle : option ref) : Js (option ref) :=
  match rectangle with
  | None => ret None
  | Some r => v <- readRectangle r;; r' <- new_Rectangle v;; ret (Some r')
  end.

(** [new GeographicTilingScheme({ellipsoid})] and
    [new WebMercatorTilingScheme({ellipsoid})]: the constructor creates the
    scheme's own rectangle object. *)
Definition construct (geographic : bool) (m : SchemeMath) : Js TilingScheme :=
  r <- new_Rectangle (mathRectangle m);;
  ret {| instanceofGeographic := geographic; rectangleOf := r;
         unproject := mathUnproject m;
         positionToTileXY := mathPositionToTileXY m |}.

Definition new_GeographicTilingScheme (e : option Ellipsoid) : Js TilingScheme :=
  construct true (GeographicMath e).
Definition new_WebMercatorTilingScheme (e : option Ellipsoid) : Js TilingScheme :=
  construct false (WebMercatorMath e).

(** *** The deferred, the error event and the request log *)

Definition complete (c : Completion) : Js unit :=
  fun w => (Returned tt,
            {| store := store w; deferred := deferred w ++ [c];
               metadataError := metadataError w; errorEvent := errorEvent w;
               requested := requested w |}).

Definition deferred_resolve (c : Configuration) : Js unit := complete (Resolved c).
Definition deferred_reject (message : string) : Js unit := complete (Rejected message).

Definition raiseEvent (message : string) : Js unit :=
  fun w => (Returned tt,
            {| store := store w; deferred := deferred w;
               metadataError := metadataError w;
               errorEvent := errorEvent w ++ [message];
               requested := requested w |}).

Definition setMetadataError (e : TileProviderError) : Js unit :=
  fun w => (Returned tt,
            {| store := store w; deferred := deferred w;
               metadataError := Some e; errorEvent := errorEvent w;
               requested := requested w |}).

Definition request (resourceUrl : string) : Js unit :=
  fun w => (Returned tt,
            {| store := store w; deferred := deferred w;
               metadataError := metadataError w; errorEvent := errorEvent w;
               requested := requested w ++ [resourceUrl] |}).

(** Modelled from the spec: [TileProviderError.handleError] of
    [Core/TileProviderError] is not among the sources.  The error is reported
    on the error event, whose listeners grant a retry or not ([grant]); a
    granted retry calls the retry function; the error object returned
    carries the decision in [retry]. *)
Definition TileProviderError_handleError
    (grant : bool) (message : string) (retryFunction : Js unit)
  : Js TileProviderError :=
  raiseEvent message;;;
  (if grant then retryFunction else ret tt);;;
  ret {| errorMessage := message; retry := grant |}.

(** A callback registered with [when(promise, onFulfilled, onRejected)]: an
    exception it throws rejects the promise that [when] returns, which
    nobody holds; nothing else happens. *)
Definition callback (m : Js unit) : Js unit :=
  fun w => (Returned tt, snd (m w)).

(** ** The function and its three closures *)

(** The variables [format], [bbox], [tilesets], [srs] and [tilesetsList]
    that the scan of the document fills in. *)
Record Scan := {
  format : option Node;
  bbox : option Node;
  tilesets : option Node;
  srs : option string;
  tilesetsList : list Node
}.

Definition emptyScan : Scan :=
  {| format := None; bbox := None; tilesets := None; srs := None;
     tilesetsList := [] |}.

(** Lines 131-136: the inner loop pushes every child whose name matches
    [/tileset/i]. *)
Definition scanTileSetNodes (tileSetNodes list_ : list Node) : list Node :=
  fold_left
    (fun l n => if regexTest "tileset" (nodeName n) then (l ++ [n])%list else l)
    tileSetNodes list_.

(** Lines 125-141: one round of the outer loop. *)
Definition scanNode (s : Scan) (n : Node) : Scan :=
  if regexTest "tileformat" (nodeName n) then
    {| format := Some n; bbox := bbox s; tilesets := tilesets s;
       srs := srs s; tilesetsList := tilesetsList s |}
  else if regexTest "tilesets" (nodeName n) then
    {| format := format s; bbox := bbox s; tilesets := Some n;
       srs := srs s;
       tilesetsList := scanTileSetNodes (childNodes n) (tilesetsList s) |}
  else if regexTest "boundingbox" (nodeName n) then
    {| format := format s; bbox := Some n; tilesets := tilesets s;
       srs := srs s; tilesetsList := tilesetsList s |}
  else if regexTest "srs" (nodeName n) then
    {| format := format s; bbox := bbox s; tilesets := tilesets s;
       srs := Some (textContent n); tilesetsList := tilesetsList s |}
  else s.

(** [tilingSchemeName === literal]. *)
Definition strictEquals (v : option string) (literal : string) : bool :=
  match v with Some s => String.eqb s literal | None => false end.

Section Invocation.
Variable options : Options.
Variable url_ : string.

(** Lines 170-202: the rectangle when [Rectangle.clone(options.rectangle)]
    is undefined. *)
Definition deriveRectangle
    (bbox : option Node) (tilingSchemeName : option string)
    (tilingScheme : TilingScheme) : Js ref :=
  let flipXY := defaultValue (flipXY options) false in
  bbox <- member bbox;;
  let swXY :=
    if flipXY
    then {| x := parseFloat (getAttribute bbox "miny");
            y := parseFloat (getAttribute bbox "minx") |}
    else {| x := parseFloat (getAttribute bbox "minx");
            y := parseFloat (getAttribute bbox "miny") |} in
  let neXY :=
    if flipXY
    then {| x := parseFloat (getAttribute bbox "maxy");
            y := parseFloat (getAttribute bbox "maxx") |}
    else {| x := parseFloat (getAttribute bbox "maxx");
            y := parseFloat (getAttribute bbox "maxy") |} in
  let isGdal2tiles :=
    strictEquals tilingSchemeName "geodetic" ||
    strictEquals tilingSchemeName "mercator" in
  let sw :=
    if instanceofGeographic tilingScheme || isGdal2tiles
    then Cartographic_fromDegrees (x swXY) (y swXY)
    else unproject tilingScheme swXY in
  let ne :=
    if instanceofGeographic tilingScheme || isGdal2tiles
    then Cartographic_fromDegrees (x neXY) (y neXY)
    else unproject tilingScheme neXY in
  new_Rectangle {| west := longitude sw; south := latitude sw;
                   east := longitude ne; north := latitude ne |}.

(** Lines 204-216: the rectangle must not be outside the bounds allowed by
    the tiling scheme. *)
Definition clampWest (rectangle : ref) (tilingScheme : TilingScheme) : Js unit :=
  r <- readRectangle rectangle;;
  b <- readRectangle (rectangleOf tilingScheme);;
  if PrimFloat.ltb (west r) (west b)
  then writeRectangle rectangle (setWest (west b)) else ret tt.

Definition clampEast (rectangle : ref) (tilingScheme : TilingScheme) : Js unit :=
  r <- readRectangle rectangle;;
  b <- readRectangle (rectangleOf tilingScheme);;
  if gtb (east r) (east b)
  then writeRectangle rectangle (setEast (east b)) else ret tt.

Definition clampSouth (rectangle : ref) (tilingScheme : TilingScheme) : Js unit :=
  r <- readRectangle rectangle;;
  b <- readRectangle (rectangleOf tilingScheme);;
  if PrimFloat.ltb (south r) (south b)
  then writeRectangle rectangle (setSouth (south b)) else ret tt.

Definition clampNorth (rectangle : ref) (tilingScheme : TilingScheme) : Js unit :=
  r <- readRectangle rectangle;;
  b <- readRectangle (rectangleOf tilingScheme);;
  if gtb (north r) (north b)
  then writeRectangle rectangle (setNorth (north b)) else ret tt.

Definition clampRectangle (rectangle : ref) (tilingScheme : TilingScheme) : Js unit :=
  clampWest rectangle tilingScheme;;;
  clampEast rectangle tilingScheme;;;
  clampSouth rectangle tilingScheme;;;
  clampNorth rectangle tilingScheme.

(** Line 223. *)
Definition tileCountOf (swTile neTile : Cartesian2) : Number :=
  ((abs (x neTile - x swTile) + 1) * (abs (y neTile - y swTile) + 1))%float.

(** Lines 218-226: the number of tiles at the minimum level; the result is
    the minimum level to use. *)
Definition checkMinimumLevel
    (rectangle : ref) (tilingScheme : TilingScheme) (minimumLevel : Number)
  : Js Number :=
  r <- readRectangle rectangle;;
  let swTile := positionToTileXY tilingScheme (Rectangle_southwest r) minimumLevel in
  let neTile := positionToTileXY tilingScheme (Rectangle_northeast r) minimumLevel in
  neTile <- member neTile;;
  swTile <- member swTile;;
  let tileCount := tileCountOf swTile neTile in
  ret (if gtb tileCount 4 then 0%float else minimumLevel).

(** Lines 271-275: the variable [resourceUrl] of [requestMetadata]. *)
Definition resourceUrl : string :=
  let resourceUrl := joinUrls url_ "tilemapresource.xml" in
  match proxy options with
  | Some proxy => getURL proxy resourceUrl
  | None => resourceUrl
  end.

(** Lines 270-278: the request is issued.  [when] registers the closures
    [metadataSuccess] and [metadataFailure] with the promise of the
    request; the outside world calls one of them when the request settles
    (see [settle] below). *)
Definition requestMetadata : Js unit := request resourceUrl.

(** Lines 152-165: the tiling scheme, or [None] when the function returns
    on line 163.  [grant] is the decision of the error event's listeners,
    should the error be reported. *)
Definition chooseTilingScheme
    (grant : bool) (tilingSchemeName : option string)
  : Js (option TilingScheme) :=
  match tilingScheme options with
  | Some tilingScheme => ret (Some tilingScheme)
  | None =>
      if strictEquals tilingSchemeName "geodetic" ||
         strictEquals tilingSchemeName "global-geodetic" then
        t <- new_GeographicTilingScheme (ellipsoid options);; ret (Some t)
      else if strictEquals tilingSchemeName "mercator" ||
              strictEquals tilingSchemeName "global-mercator" then
        t <- new_WebMercatorTilingScheme (ellipsoid options);; ret (Some t)
      else
        let message :=
          joinUrls url_ "tilemapresource.xml" ++
          "specifies an unsupported profile attribute, " ++
          toString tilingSchemeName ++ "." in
        e <- TileProviderError_handleError grant message requestMetadata;;
        setMetadataError e;;;
        (if negb (retry e) then deferred_reject message else ret tt);;;
        ret None
  end.

(** Lines 111-242. *)
Definition metadataSuccess (grant : bool) (xml : Document) : Js unit :=
  root <- member (head (documentChildNodes xml));;
  let nodeList := childNodes root in
  let s := fold_left scanNode nodeList emptyScan in
  format <- member (format s);;
  let fileExtension :=
    match fileExtension options with
    | Some e => Some e
    | None => getAttribute format "extension"
    end in
  let tileWidth :=
    defaultValue (tileWidth options) (parseInt (getAttribute format "width")) in
  let tileHeight :=
    defaultValue (tileHeight options) (parseInt (getAttribute format "height")) in
  first <- member (head (tilesetsList s));;
  let minimumLevel :=
    defaultValue (minimumLevel options) (parseInt (getAttribute first "order")) in
  last_ <- member (last (tilesetsList s));;
  let maximumLevel :=
    defaultValue (maximumLevel options) (parseInt (getAttribute last_ "order")) in
  tilesets <- member (tilesets s);;
  let tilingSchemeName := getAttribute tilesets "profile" in
  chosen <- chooseTilingScheme grant tilingSchemeName;;
  match chosen with
  | None => ret tt
  | Some tilingScheme =>
      clone <- Rectangle_clone (rectangle options);;
      rectangle <- match clone with
                   | Some r => ret r
                   | None => deriveRectangle (bbox s) tilingSchemeName tilingScheme
                   end;;
      clampRectangle rectangle tilingScheme;;;
      minimumLevel <- checkMinimumLevel rectangle tilingScheme minimumLevel;;
      let templateUrl :=
        joinUrls url_ ("{z}/{x}/{reverseY}." ++ toString fileExtension) in
      deferred_resolve
        {| cfgUrl := templateUrl;
           cfgTilingScheme := tilingScheme;
           cfgRectangle := rectangle;
           cfgTileWidth := tileWidth;
           cfgTileHeight := tileHeight;
           cfgMinimumLevel := minimumLevel;
           cfgMaximumLevel := Some maximumLevel;
           cfgProxy := proxy options;
           cfgTileDiscardPolicy := tileDiscardPolicy options;
           cfgCredit := credit options |}
  end.

(** Lines 244-268. *)
Definition metadataFailure : Js unit :=
  let fileExtension := defaultValue (fileExtension options) "png" in
  let tileWidth := defaultValue (tileWidth options) 256%float in
  let tileHeight := defaultValue (tileHeight options) 256%float in
  let minimumLevel := defaultValue (minimumLevel options) 0%float in
  let maximumLevel := maximumLevel options in
  tilingScheme <- match tilingScheme options with
                  | Some t => ret t
                  | None => new_WebMercatorTilingScheme (ellipsoid options)
                  end;;
  let rectangle := defaultValue (rectangle options) (rectangleOf tilingScheme) in
  let templateUrl := joinUrls url_ ("{z}/{x}/{reverseY}." ++ fileExtension) in
  deferred_resolve
    {| cfgUrl := templateUrl;
       cfgTilingScheme := tilingScheme;
       cfgRectangle := rectangle;
       cfgTileWidth := tileWidth;
       cfgTileHeight := tileHeight;
       cfgMinimumLevel := minimumLevel;
       cfgMaximumLevel := maximumLevel;
       cfgProxy := proxy options;
       cfgTileDiscardPolicy := tileDiscardPolicy options;
       cfgCredit := credit options |}.

(** What the outside world does with one request: the document arrives
    parsed, or the request or the parse fails; and what the listeners of the
    error event decide if an error is reported while handling it. *)
Inductive Response :=
  | Loaded (xml : Document)
  | Failed.

Record Attempt := { response : Response; retryGranted : bool }.

(** The outside world after the function has returned.  The requests are
    settled in the order they were issued, the [n]-th request as the [n]-th
    attempt of the list says, and the closure registered for the outcome is
    called; a request without an attempt in the list never settles. *)
Fixpoint settle (script : list Attempt) (settled : nat) : Js unit :=
  match script with
  | [] => ret tt
  | a :: script' =>
      fun w =>
        if (settled <? length (requested w))%nat then
          (callback
             match response a with
             | Loaded xml => metadataSuccess (retryGranted a) xml
             | Failed => metadataFailure
             end;;;
           settle script' (S settled)) w
        else (Returned tt, w)
  end.

End Invocation.

Definition noOptions : Options :=
  {| url := None; fileExtension := None; proxy := None; credit := None;
     minimumLevel := None; maximumLevel := None; rectangle := None;
     tilingScheme := None; ellipsoid := None; tileWidth := None;
     tileHeight := None; flipXY := None; tileDiscardPolicy := None |}.

(** Lines 95-282.  The deferred of the invocation is the [deferred] of the
    world it starts from; the imagery provider returned is not modelled. *)
Definition createTileMapServiceImageryProvider (options : option Options)
  : Js unit :=
  let options := defaultValue options noOptions in
  match url options with
  | None => throw (DeveloperError "options.url is required.")
  | Some url => requestMetadata options url
  end.

(** The invocation, from a store of the caller's objects and with a new
    deferred, followed by what the outside world does. *)
Definition run (options : option Options) (script : list Attempt)
    (objects : list Rectangle) : Outcome unit * World :=
  (createTileMapServiceImageryProvider options;;;
   match url (defaultValue options noOptions) with
   | Some url => settle (defaultValue options noOptions) url script 0
   | None => ret tt
   end) (initialWorld objects).

End Provider.

Notation "v <- m ;; k" := (bind m (fun v => k))
  (at level 100, m at next level, right associativity).
Notation "m ;;; k" := (bind m (fun _ => k))
  (at level 100, right associativity).

(** ** A concrete set of collaborators and sample documents

    Used to run the definitions on explicit inputs.  Decimal integer
    attribute values are parsed exactly; the geographic scheme follows
    [GeographicTilingScheme] (two tiles by one at level zero); the Mercator
    latitude formulas need [exp] and [atan], which binary64 arithmetic alone
    does not give, so the second scheme here is linear in latitude. *)
Module Fixture.

Definition digitValue (c : ascii) : option Number :=
  match c with
  | "0"%char => Some 0%float | "1"%char => Some 1%float
  | "2"%char => Some 2%float | "3"%char => Some 3%float
  | "4"%char => Some 4%float | "5"%char => Some 5%float
  | "6"%char => Some 6%float | "7"%char => Some 7%float
  | "8"%char => Some 8%float | "9"%char => Some 9%float
  | _ => None
  end.

(** The leading decimal digits of [s], continuing the value [acc]. *)
Fixpoint leadingDigits (s : string) (acc : option Number) : option Number :=
  match s with
  | EmptyString => acc
  | String c s' =>
      match digitValue c with
      | Some d => leadingDigits s' (Some (defaultValue acc 0 * 10 + d)%float)
      | None => acc
      end
  end.

Definition parseDecimal (s : option string) : Number :=
  match s with
  | None => nan
  | Some (String "-"%char s') =>
      match leadingDigits s' None with Some v => (- v)%float | None => nan end
  | Some s => defaultValue (leadingDigits s None) nan
  end.

(** [v | 0] for a finite number of moderate size. *)
Definition truncate (f : Number) : Z :=
  match Prim2SF f with
  | S754_finite s m e =>
      let v := if (0 <=? e)%Z then (Zpos m * 2 ^ e)%Z
               else (Zpos m / 2 ^ (- e))%Z in
      if s then (- v)%Z else v
  | _ => 0%Z
  end.

Definition ofZ (z : Z) : Number :=
  match z with
  | Z0 => 0%float
  | Zpos p => SF2Prim (S754_finite false p 0)
  | Zneg p => SF2Prim (S754_finite true p 0)
  end.

Definition pi : Number := 0x1.921fb54442d18p+1%float.
Definition radiansPerDegree : Number := 0x1.1df46a2529d39p-6%float.
Definition semimajorAxis : Number := 6378137%float.

Definition fromDegrees (lon lat : Number) : Cartographic :=
  {| longitude := (lon * radiansPerDegree)%float;
     latitude := (lat * radiansPerDegree)%float;
     height := 0%float |}.

Definition contains (r : Rectangle) (p : Cartographic) : bool :=
  PrimFloat.leb (west r) (longitude p) && PrimFloat.leb (longitude p) (east r) &&
  PrimFloat.leb (south r) (latitude p) && PrimFloat.leb (latitude p) (north r).

Definition tileXY (levelZeroX levelZeroY : Number) (r : Rectangle)
    (p : Cartographic) (level : Number) : option Cartesian2 :=
  if contains r p then
    let xTiles := Z.ldexp levelZeroX (truncate level) in
    let yTiles := Z.ldexp levelZeroY (truncate level) in
    let xTileWidth := ((east r - west r) / xTiles)%float in
    let yTileHeight := ((north r - south r) / yTiles)%float in
    let xTile := ofZ (truncate ((longitude p - west r) / xTileWidth)%float) in
    let yTile := ofZ (truncate ((north r - latitude p) / yTileHeight)%float) in
    Some {| x := if PrimFloat.leb xTiles xTile then (xTiles - 1)%float else xTile;
            y := if PrimFloat.leb yTiles yTile then (yTiles - 1)%float else yTile |}
  else None.

Definition linearUnproject (c : Cartesian2) : Cartographic :=
  {| longitude := (x c / semimajorAxis)%float;
     latitude := (y c / semimajorAxis)%float;
     height := 0%float |}.

Definition geographicRectangle : Rectangle :=
  {| west := (- pi)%float; south := (- (pi / 2))%float;
     east := pi; north := (pi / 2)%float |}.

Definition mercatorRectangle : Rectangle :=
  {| west := (- pi)%float; south := (- 0x1.7c031862362b8p+0)%float;
     east := pi; north := 0x1.7c031862362b8p+0%float |}.

Definition geographicMath : SchemeMath :=
  {| mathRectangle := geographicRectangle;
     mathUnproject := linearUnproject;
     mathPositionToTileXY := tileXY 2 1 geographicRectangle |}.

Definition mercatorMath : SchemeMath :=
  {| mathRectangle := mercatorRectangle;
     mathUnproject := linearUnproject;
     mathPositionToTileXY := tileXY 1 1 mercatorRectangle |}.

Definition collaborators : Collaborators :=
  {| Ellipsoid := unit;
     Credit := string;
     TileDiscardPolicy := unit;
     parseInt := parseDecimal;
     parseFloat := parseDecimal;
     joinUrls := fun a b => a ++ "/" ++ b;
     Cartographic_fromDegrees := fromDegrees;
     GeographicMath := fun _ => geographicMath;
     WebMercatorMath := fun _ => mercatorMath |}.

Definition element (name : string) (attributes : list (string * string))
    (children : list Node) : Node :=
  mkNode name attributes "" children.

Definition whitespace : Node := mkNode "#text" [] " " [].

Definition tileFormat : Node :=
  element "TileFormat"
    [("width", "256"); ("height", "256"); ("mime-type", "image/png");
     ("extension", "png")] [].

Definition boundingBox : Node :=
  element "BoundingBox"
    [("minx", "-120"); ("miny", "20"); ("maxx", "-60"); ("maxy", "40")] [].

Definition tileSet (order : string) : Node :=
  element "TileSet" [("href", order); ("order", order)] [].

Definition tileSets (profile : string) (entries : list Node) : Node :=
  element "TileSets" [("profile", profile)] entries.

Definition srsNode : Node := mkNode "SRS" [] "EPSG:4326" [].

Definition tileMapElement (children : list Node) : Node :=
  element "TileMap" [("version", "1.0.0")] children.

Definition tileMap (children : list Node) : Document :=
  {| documentChildNodes := [tileMapElement children] |}.

(** The tileset list with orders 2 and 9. *)
Definition twoTileSets (profile : string) : Node :=
  tileSets profile [whitespace; tileSet "2"; whitespace; tileSet "9"].

(** A complete document with the given profile. *)
Definition rootElement (profile : string) : Node :=
  tileMapElement [whitespace; srsNode; whitespace; boundingBox; whitespace;
                  tileFormat; whitespace; twoTileSets profile].

Definition document (profile : string) : Document :=
  {| documentChildNodes := [rootElement profile] |}.

(** The same document without its [TileFormat] element. *)
Definition documentWithoutFormat (profile : string) : Document :=
  tileMap [whitespace; srsNode; whitespace; boundingBox; whitespace;
           tileSets profile [whitespace; tileSet "2"; whitespace; tileSet "9"]].



Definition address : string := "http://host/tiles".

Definition options : Options (H := collaborators) :=
  {| url := Some address; fileExtension := None; proxy := None; credit := None;
     minimumLevel := None; maximumLevel := None; rectangle := None;
     tilingScheme := None; ellipsoid := None; tileWidth := None;
     tileHeight := None; flipXY := None; tileDiscardPolicy := None |}.

(** A rectangle wider than any scheme's, as a caller's object. *)
Definition wide : Rectangle :=
  {| west := (-4)%float; south := (-2)%float; east := 4%float; north := 2%float |}.

(** Options whose rectangle is the object at reference [0] and whose
    minimum level is [5]. *)
Definition optionsWithOverrides : Options (H := collaborators) :=
  {| url := Some address; fileExtension := None; proxy := None; credit := None;
     minimumLevel := Some 5%float; maximumLevel := None; rectangle := Some 0;
     tilingScheme := None; ellipsoid := None; tileWidth := None;
     tileHeight := None; flipXY := None; tileDiscardPolicy := None |}.

Definition loaded (xml : Document) : Attempt :=
  {| response := Loaded xml; retryGranted := false |}.

Definition failed : Attempt := {| response := Failed; retryGranted := false |}.





(** The complete document without its [BoundingBox] element. *)
Definition rootWithoutBoundingBox (profile : string) : Node :=
  tileMapElement [whitespace; srsNode; whitespace; tileFormat; whitespace;
                  twoTileSets profile].

Definition documentWithoutBoundingBox (profile : string) : Document :=
  {| documentChildNodes := [rootWithoutBoundingBox profile] |}.

(** The bounding box with the values of X and Y exchanged. *)
Definition exchangedBoundingBox : Node :=
  element "BoundingBox"
    [("minx", "20"); ("miny", "-120"); ("maxx", "40"); ("maxy", "-60")] [].

Definition flippedOptions : Options (H := collaborators) :=
  {| url := Some address; fileExtension := None; proxy := None; credit := None;
     minimumLevel := None; maximumLevel := None; rectangle := None;
     tilingScheme := None; ellipsoid := None; tileWidth := None;
     tileHeight := None; flipXY := Some true; tileDiscardPolicy := None |}.

End Fixture.

(** ** Statements in the words of the specification *)

(** An edge beyond the scheme's corresponding bound is pulled in to it; an
    edge within is left as it is. *)
Definition clampEdges (bounds r : Rectangle) : Rectangle :=
  {| west := if PrimFloat.ltb (west r) (west bounds) then west bounds else west r;
     south := if PrimFloat.ltb (south r) (south bounds) then south bounds else south r;
     east := if PrimFloat.ltb (east bounds) (east r) then east bounds else east r;
     north := if PrimFloat.ltb (north bounds) (north r) then north bounds else north r |}.

(** The rectangle of a bounding box: the X and Y roles are exchanged when
    the flip flag is set; the extrema are degrees when the scheme is
    geographic or the profile is one of the two names without "global-",
    and projected coordinates otherwise; the rectangle goes from the
    southwest to the northeast corner. *)
Definition boundingBoxRectangle `{Collaborators}
    (flip : bool) (box : Node) (profile : option string) (t : TilingScheme)
  : Rectangle :=
  let minx := parseFloat (getAttribute box "minx") in
  let miny := parseFloat (getAttribute box "miny") in
  let maxx := parseFloat (getAttribute box "maxx") in
  let maxy := parseFloat (getAttribute box "maxy") in
  let degrees :=
    instanceofGeographic t ||
    bool_decide (profile = Some "geodetic" \/ profile = Some "mercator") in
  let corner (first second : Number) : Cartographic :=
    if degrees then Cartographic_fromDegrees first second
    else unproject t {| x := first; y := second |} in
  let southwest := if flip then corner miny minx else corner minx miny in
  let northeast := if flip then corner maxy maxx else corner maxx maxy in
  {| west := longitude southwest; south := latitude southwest;
     east := longitude northeast; north := latitude northeast |}.

(** The minimum level after the tile-count heuristic, when the tiling
    scheme gives a tile for both corners of the rectangle. *)
Definition heuristicMinimumLevel (t : TilingScheme) (r : Rectangle)
    (level : Number) : option Number :=
  match positionToTileXY t (Rectangle_southwest r) level,
        positionToTileXY t (Rectangle_northeast r) level with
  | Some sw, Some ne =>
      let dx := abs (x ne - x sw) in
      let dy := abs (y ne - y sw) in
      let tileCount := ((dx + 1) * (dy + 1))%float in
      Some (if PrimFloat.ltb 4 tileCount then 0%float else level)
  | _, _ => None
  end.

(** The object a tiling scheme constructor creates, given the reference of
    its rectangle. *)
Definition schemeObject (geographic : bool) (m : SchemeMath) (r : ref)
  : TilingScheme :=
  {| instanceofGeographic := geographic; rectangleOf := r;
     unproject := mathUnproject m;
     positionToTileXY := mathPositionToTileXY m |}.

(** The message of the unsupported-profile error. *)
Definition unsupportedProfileMessage `{Collaborators} (url_ : string)
    (profile : option string) : string :=
  joinUrls url_ "tilemapresource.xml" ++
  "specifies an unsupported profile attribute, " ++ toString profile ++ ".".

(** The four supported profile names. *)
Definition supportedProfile (profile : option string) : Prop :=
  profile = Some "geodetic" \/ profile = Some "global-geodetic" \/
  profile = Some "mercator" \/ profile = Some "global-mercator".

(** The variables filled in from the children of the root element. *)
Definition documentScan (root : Node) : Scan :=
  fold_left scanNode (childNodes root) emptyScan.

(** The rectangle before clamping: the caller's when there is one, else
    the bounding box's. *)
Definition startingRectangle `{Collaborators} (options : Options)
    (box : option Node) (profile : option string) (t : TilingScheme)
    (objects : list Rectangle) : option Rectangle :=
  match rectangle options with
  | Some r => objects !! r
  | None =>
      match box with
      | Some b =>
          Some (boundingBoxRectangle (defaultValue (flipXY options) false)
                  b profile t)
      | None => None
      end
  end.

(** The level the document or the caller asks for, before the heuristic. *)
Definition requestedMinimumLevel `{Collaborators} (options : Options)
    (firstSet : Node) : Number :=
  defaultValue (minimumLevel options) (parseInt (getAttribute firstSet "order")).

(** The configuration of the success path: overrides first, then the
    document. *)
Definition successConfiguration `{Collaborators} (options : Options)
    (url_ : string) (formatNode lastSet : Node) (t : TilingScheme)
    (r : ref) (level : Number) : Configuration :=
  {| cfgUrl :=
       joinUrls url_
         ("{z}/{x}/{reverseY}." ++
          toString (match fileExtension options with
                    | Some e => Some e
                    | None => getAttribute formatNode "extension"
                    end));
     cfgTilingScheme := t;
     cfgRectangle := r;
     cfgTileWidth :=
       defaultValue (tileWidth options) (parseInt (getAttribute formatNode "width"));
     cfgTileHeight :=
       defaultValue (tileHeight options) (parseInt (getAttribute formatNode "height"));
     cfgMinimumLevel := level;
     cfgMaximumLevel :=
       Some (defaultValue (maximumLevel options)
               (parseInt (getAttribute lastSet "order")));
     cfgProxy := proxy options;
     cfgTileDiscardPolicy := tileDiscardPolicy options;
     cfgCredit := credit options |}.

(** ** The roles of the children of the root element

    The tests of lines 125-141 are tried in order, so a node has the first
    role whose pattern its name matches. *)
Definition isFormatNode (n : Node) : bool :=
  regexTest "tileformat" (nodeName n).
Definition isTileSetsNode (n : Node) : bool :=
  negb (isFormatNode n) && regexTest "tilesets" (nodeName n).
Definition isBoundingBoxNode (n : Node) : bool :=
  negb (isFormatNode n) && negb (regexTest "tilesets" (nodeName n)) &&
  regexTest "boundingbox" (nodeName n).
Definition isSrsNode (n : Node) : bool :=
  negb (isFormatNode n) && negb (regexTest "tilesets" (nodeName n)) &&
  negb (regexTest "boundingbox" (nodeName n)) && regexTest "srs" (nodeName n).

(** The children of a tileset container whose name matches [/tileset/i]. *)
Definition tileSetEntries (container : Node) : list Node :=
  List.filter (fun m => regexTest "tileset" (nodeName m)) (childNodes container).

(** A document on which the success closure reaches the profile test and
    finds a profile that is none of the four names. *)
Definition UnsupportedDocument (xml : Document) (profile : option string) : Prop :=
  exists root formatNode firstSet setsNode,
    head (documentChildNodes xml) = Some root /\
    format (documentScan root) = Some formatNode /\
    head (tilesetsList (documentScan root)) = Some firstSet /\
    tilesets (documentScan root) = Some setsNode /\
    profile = getAttribute setsNode "profile" /\
    ~ supportedProfile profile.

(** The configuration of the fallback, [r] being the reference a scheme
    created for it gets: overrides first, then the constants of lines
    246-252. *)
Definition fallbackConfiguration `{Collaborators} (options : Options)
    (url_ : string) (r : ref) : Configuration :=
  let t := defaultValue (tilingScheme options)
             (schemeObject false (WebMercatorMath (ellipsoid options)) r) in
  {| cfgUrl := joinUrls url_ ("{z}/{x}/{reverseY}." ++
                              defaultValue (fileExtension options) "png");
     cfgTilingScheme := t;
     cfgRectangle := defaultValue (rectangle options) (rectangleOf t);
     cfgTileWidth := defaultValue (tileWidth options) 256%float;
     cfgTileHeight := defaultValue (tileHeight options) 256%float;
     cfgMinimumLevel := defaultValue (minimumLevel options) 0%float;
     cfgMaximumLevel := maximumLevel options;
     cfgProxy := proxy options;
     cfgTileDiscardPolicy := tileDiscardPolicy options;
     cfgCredit := credit options |}.

(** The document arrives and the listeners grant a retry. *)
Definition grantedRetry (xml : Document) : Attempt :=
  {| response := Loaded xml; retryGranted := true |}.

(** ** Pre- and postconditions *)

Definition triple `{Collaborators} {A} (P : World -> Prop) (m : Js A)
    (Q : Outcome A -> World -> Prop) : Prop :=
  forall w, P w -> Q (m w).1 (m w).2.

(** A computation that leaves in place whatever [I] describes. *)
Definition preserves `{Collaborators} {A} (I : World -> Prop) (m : Js A) : Prop :=
  triple I m (fun _ w => I w).

(** The objects [s0] that existed before are still there, unchanged, the
    calls made on the deferred are [d] and the requests issued are [q]. *)
Definition Quiet `{Collaborators} (s0 : list Rectangle) (d : list Completion)
    (q : list string) (w : World) : Prop :=
  s0 `prefix_of` store w /\ deferred w = d /\ requested w = q.

(** As [Quiet], but the deferred has been completed one more time, with a
    completion that satisfies [phi]. *)
Definition Once `{Collaborators} (phi : Completion -> Prop)
    (s0 : list Rectangle) (d : list Completion) (q : list string) (w : World)
  : Prop :=
  s0 `prefix_of` store w /\ requested w = q /\
  exists c, deferred w = (d ++ [c])%list /\ phi c.

(** As [Quiet], but one more request has been issued. *)
Definition Retried `{Collaborators} (s0 : list Rectangle) (d : list Completion)
    (q : list string) (w : World) : Prop :=
  s0 `prefix_of` store w /\ deferred w = d /\
  exists r, requested w = (q ++ [r])%list.

(** What a closure called by the outside world leaves behind: nothing, or
    one completion, or one more request. *)
Definition After `{Collaborators} (phi : Completion -> Prop)
    (s0 : list Rectangle) (d : list Completion) (q : list string) (w : World)
  : Prop :=
  Quiet s0 d q w \/ Once phi s0 d q w \/ Retried s0 d q w.

(** The objects [s0] are still there and the deferred has been completed
    at most one more time. *)
Definition AtMostOnce `{Collaborators} (s0 : list Rectangle)
    (d : list Completion) (w : World) : Prop :=
  s0 `prefix_of` store w /\
  (deferred w = d \/ exists c, deferred w = (d ++ [c])%list).

(** A configuration whose rectangle is none of the objects [s0]. *)
Definition ownRectangle `{Collaborators} (s0 : list Rectangle) (c : Completion)
  : Prop :=
  match c with
  | Resolved cfg => length s0 <= cfgRectangle cfg
  | Rejected _ => True
  end.

Section Properties.
Context `{Collaborators}.

(** ** The store *)

Lemma withStore_same (w : World) : withStore w (store w) = w.
Proof. by destruct w. Qed.

Lemma withStore_withStore (w : World) (s1 s2 : list Rectangle) :
  withStore (withStore w s1) s2 = withStore w s2.
Proof. done. Qed.

Lemma alter_as_insert (f : Rectangle -> Rectangle) (s : list Rectangle)
    (r : ref) (v : Rectangle) :
  s !! r = Some v -> alter f r s = <[r := f v]> s.
Proof.
  revert r; induction s as [|a s IH]; intros [|r] Hr; simplify_eq/=; try done.
  f_equal. by apply IH.
Qed.

Lemma readRectangle_eq (w : World) (r : ref) (v : Rectangle) :
  store w !! r = Some v -> readRectangle r w = (Returned v, w).
Proof. intros Hr. unfold readRectangle. by rewrite Hr. Qed.

(** One conditional assignment of the clamping block, evaluated. *)
Ltac clamp_edge Hr Hb :=
  unfold bind, gtb;
  rewrite (readRectangle_eq _ _ _ Hr), (readRectangle_eq _ _ _ Hb);
  destruct (PrimFloat.ltb _ _);
  [ unfold writeRectangle; by rewrite (alter_as_insert _ _ _ _ Hr)
  | unfold ret; by rewrite (list_insert_id _ _ _ Hr), withStore_same ].

(** One edge: the store after the conditional assignment. *)
Lemma clampWest_eq (w : World) (r : ref) (t : TilingScheme) (v b : Rectangle) :
  r ≠ rectangleOf t -> store w !! r = Some v -> store w !! rectangleOf t = Some b ->
  clampWest r t w =
  (Returned tt,
   withStore w (<[r := if PrimFloat.ltb (west v) (west b)
                       then setWest (west b) v else v]> (store w))).
Proof. intros Hne Hr Hb. unfold clampWest. clamp_edge Hr Hb. Qed.

Lemma clampEast_eq (w : World) (r : ref) (t : TilingScheme) (v b : Rectangle) :
  r ≠ rectangleOf t -> store w !! r = Some v -> store w !! rectangleOf t = Some b ->
  clampEast r t w =
  (Returned tt,
   withStore w (<[r := if PrimFloat.ltb (east b) (east v)
                       then setEast (east b) v else v]> (store w))).
Proof. intros Hne Hr Hb. unfold clampEast. clamp_edge Hr Hb. Qed.

Lemma clampSouth_eq (w : World) (r : ref) (t : TilingScheme) (v b : Rectangle) :
  r ≠ rectangleOf t -> store w !! r = Some v -> store w !! rectangleOf t = Some b ->
  clampSouth r t w =
  (Returned tt,
   withStore w (<[r := if PrimFloat.ltb (south v) (south b)
                       then setSouth (south b) v else v]> (store w))).
Proof. intros Hne Hr Hb. unfold clampSouth. clamp_edge Hr Hb. Qed.

Lemma clampNorth_eq (w : World) (r : ref) (t : TilingScheme) (v b : Rectangle) :
  r ≠ rectangleOf t -> store w !! r = Some v -> store w !! rectangleOf t = Some b ->
  clampNorth r t w =
  (Returned tt,
   withStore w (<[r := if PrimFloat.ltb (north b) (north v)
                       then setNorth (north b) v else v]> (store w))).
Proof. intros Hne Hr Hb. unfold clampNorth. clamp_edge Hr Hb. Qed.

(** The four assignments together, when the rectangle and the scheme's
    rectangle are two objects. *)
Lemma clampRectangle_eq (w : World) (r : ref) (t : TilingScheme) (v b : Rectangle) :
  r ≠ rectangleOf t -> store w !! r = Some v -> store w !! rectangleOf t = Some b ->
  clampRectangle r t w =
  (Returned tt, withStore w (<[r := clampEdges b v]> (store w))).
Proof.
  intros Hne Hr Hb. unfold clampRectangle, bind.
  assert (Hlt : r < length (store w)) by by eapply lookup_lt_Some.
  rewrite (clampWest_eq _ _ _ _ _ Hne Hr Hb).
  erewrite clampEast_eq; [|done| |]; cycle 1.
  { cbn. by apply list_lookup_insert_eq. }
  { cbn. by rewrite list_lookup_insert_ne. }
  erewrite clampSouth_eq; [|done| |]; cycle 1.
  { cbn. rewrite list_insert_insert_eq. by apply list_lookup_insert_eq. }
  { cbn. by rewrite !list_lookup_insert_ne. }
  erewrite clampNorth_eq; [|done| |]; cycle 1.
  { cbn. rewrite !list_insert_insert_eq. by apply list_lookup_insert_eq. }
  { cbn. by rewrite !list_lookup_insert_ne. }
  cbn. rewrite !list_insert_insert_eq. do 3 f_equal.
  unfold clampEdges.
  destruct v as [vw vs ve vn], b as [bw bs be bn]; cbn.
  destruct (PrimFloat.ltb vw bw); cbn;
    destruct (PrimFloat.ltb be ve); cbn;
    destruct (PrimFloat.ltb vs bs); cbn;
    by destruct (PrimFloat.ltb bn vn).
Qed.

(** When the rectangle is the scheme's own rectangle object, every test
    compares an edge with itself and no assignment changes the store. *)
Lemma clampRectangle_alias (w : World) (t : TilingScheme) (b : Rectangle) :
  store w !! rectangleOf t = Some b ->
  clampRectangle (rectangleOf t) t w = (Returned tt, w).
Proof.
  intros Hb.
  assert (Hw : forall f, f b = b ->
    writeRectangle (rectangleOf t) f w = (Returned tt, w)).
  { intros f Hf. unfold writeRectangle.
    by rewrite (alter_as_insert _ _ _ _ Hb), Hf, (list_insert_id _ _ _ Hb),
      withStore_same. }
  unfold clampRectangle, clampWest, clampEast, clampSouth, clampNorth, bind, gtb.
  rewrite !(readRectangle_eq _ _ _ Hb).
  destruct (PrimFloat.ltb (west b) (west b));
    [rewrite Hw by by destruct b|unfold ret];
    rewrite !(readRectangle_eq _ _ _ Hb);
    (destruct (PrimFloat.ltb (east b) (east b));
      [rewrite Hw by by destruct b|unfold ret]);
    rewrite !(readRectangle_eq _ _ _ Hb);
    (destruct (PrimFloat.ltb (south b) (south b));
      [rewrite Hw by by destruct b|unfold ret]);
    rewrite !(readRectangle_eq _ _ _ Hb);
    (destruct (PrimFloat.ltb (north b) (north b));
      [by rewrite Hw by by destruct b|done]).
Qed.

(** ** The scan of the document *)



Lemma head_last_is_Some {A} (l : list A) (a : A) :
  head l = Some a -> is_Some (last l).
Proof.
  intros Hl. destruct l as [|b l]; [done|].
  destruct (last (b :: l)) eqn:E; [eauto|].
  by apply last_None in E.
Qed.

(** ** Rules for pre- and postconditions *)

Lemma triple_ret {A} (P : World -> Prop) (a : A) (Q : Outcome A -> World -> Prop) :
  (forall w, P w -> Q (Returned a) w) -> triple P (ret a) Q.
Proof. intros HQ w HP. by apply HQ. Qed.

Lemma triple_throw {A} (P : World -> Prop) (e : Exception)
    (Q : Outcome A -> World -> Prop) :
  (forall w, P w -> Q (Thrown e) w) -> triple P (throw e) Q.
Proof. intros HQ w HP. by apply HQ. Qed.

Lemma triple_bind {A B} (P : World -> Prop) (R : Outcome A -> World -> Prop)
    (Q : Outcome B -> World -> Prop) (m : Js A) (k : A -> Js B) :
  triple P m R ->
  (forall a, triple (R (Returned a)) (k a) Q) ->
  (forall e w, R (Thrown e) w -> Q (Thrown e) w) ->
  triple P (bind m k) Q.
Proof.
  intros Hm Hk He w HP. specialize (Hm w HP). unfold bind.
  destruct (m w) as [[a|e] w']; cbn in *; [by apply Hk|by apply He].
Qed.

Lemma triple_weaken {A} (P : World -> Prop) (Q Q' : Outcome A -> World -> Prop)
    (m : Js A) :
  triple P m Q -> (forall o w, Q o w -> Q' o w) -> triple P m Q'.
Proof. intros Hm HQ w HP. apply HQ. by apply Hm. Qed.

Lemma triple_pure {A} (P : World -> Prop) (phi : Prop) (m : Js A)
    (Q : Outcome A -> World -> Prop) :
  (phi -> triple P m Q) -> triple (fun w => P w /\ phi) m Q.
Proof. intros Hm w [HP Hphi]. by apply Hm. Qed.

Lemma preserves_ret {A} (I : World -> Prop) (a : A) : preserves I (ret a).
Proof. by apply triple_ret. Qed.

Lemma preserves_throw {A} (I : World -> Prop) (e : Exception) :
  preserves I (throw (A := A) e).
Proof. by apply triple_throw. Qed.

Lemma preserves_member {A} (I : World -> Prop) (o : option A) :
  preserves I (member o).
Proof. destruct o; [apply preserves_ret|apply preserves_throw]. Qed.

Lemma preserves_bind {A B} (I : World -> Prop) (m : Js A) (k : A -> Js B) :
  preserves I m -> (forall a, preserves I (k a)) -> preserves I (bind m k).
Proof. intros Hm Hk. eapply triple_bind; [apply Hm|apply Hk|done]. Qed.

Section Quiet.
Variable s0 : list Rectangle.
Variable d : list Completion.
Variable q : list string.

Lemma new_Rectangle_quiet (v : Rectangle) :
  triple (Quiet s0 d q) (new_Rectangle v)
    (fun o w => Quiet s0 d q w /\ exists r, o = Returned r /\ length s0 <= r).
Proof.
  intros w (Hs & Hd & Hq). cbn. repeat split; [by apply prefix_app_r|done|done|].
  eexists; split; [done|]. by apply prefix_length.
Qed.

Lemma readRectangle_quiet (r : ref) : preserves (Quiet s0 d q) (readRectangle r).
Proof. intros w HQ. unfold readRectangle. by destruct (store w !! r). Qed.

Lemma writeRectangle_quiet (r : ref) (f : Rectangle -> Rectangle) :
  length s0 <= r -> preserves (Quiet s0 d q) (writeRectangle r f).
Proof.
  intros Hr w ([k Hs] & Hd & Hq). split; [|done]. cbn.
  rewrite Hs, alter_app_r_alt by done. by apply prefix_app_r.
Qed.

Ltac clamp_quiet :=
  apply preserves_bind; [apply readRectangle_quiet|intros];
  apply preserves_bind; [apply readRectangle_quiet|intros];
  case_match; [by apply writeRectangle_quiet|apply preserves_ret].

Lemma clampRectangle_quiet (r : ref) (t : TilingScheme) :
  length s0 <= r -> preserves (Quiet s0 d q) (clampRectangle r t).
Proof.
  intros Hr. unfold clampRectangle.
  apply preserves_bind; [unfold clampWest; clamp_quiet|intros].
  apply preserves_bind; [unfold clampEast; clamp_quiet|intros].
  apply preserves_bind; [unfold clampSouth; clamp_quiet|intros].
  unfold clampNorth; clamp_quiet.
Qed.

Lemma Rectangle_clone_quiet (rectangle : option ref) :
  triple (Quiet s0 d q) (Rectangle_clone rectangle)
    (fun o w => Quiet s0 d q w /\
                forall r, o = Returned (Some r) -> length s0 <= r).
Proof.
  destruct rectangle as [r0|]; cbn.
  - eapply triple_bind; [apply readRectangle_quiet| |by intros].
    intros v. eapply triple_bind; [apply new_Rectangle_quiet| |].
    + intros r. apply triple_ret. intros w (HQ & r' & ? & ?).
      split; [done|]. intros ? ?. by simplify_eq.
    + intros e w (HQ & r' & ? & ?). done.
  - apply triple_ret. intros w HQ. split; [done|]. by intros.
Qed.

Lemma deriveRectangle_quiet (options : Options) (bbox : option Node)
    (name : option string) (t : TilingScheme) :
  triple (Quiet s0 d q) (deriveRectangle options bbox name t)
    (fun o w => Quiet s0 d q w /\ forall r, o = Returned r -> length s0 <= r).
Proof.
  unfold deriveRectangle.
  eapply triple_bind; [apply preserves_member| |by intros].
  intros b. eapply triple_weaken; [apply new_Rectangle_quiet|].
  intros o w (HQ & r & -> & ?). split; [done|]. intros ? ?. by simplify_eq.
Qed.

Lemma checkMinimumLevel_quiet (r : ref) (t : TilingScheme) (level : Number) :
  preserves (Quiet s0 d q) (checkMinimumLevel r t level).
Proof.
  unfold checkMinimumLevel.
  apply preserves_bind; [apply readRectangle_quiet|intros].
  apply preserves_bind; [apply preserves_member|intros].
  apply preserves_bind; [apply preserves_member|intros].
  apply preserves_ret.
Qed.

Lemma construct_quiet (geographic : bool) (m : SchemeMath) :
  triple (Quiet s0 d q) (construct geographic m)
    (fun o w => Quiet s0 d q w /\ exists t, o = Returned t).
Proof.
  intros w (Hs & Hd & Hq). cbn.
  repeat split; [by apply prefix_app_r|done|done|eauto].
Qed.

Lemma deferred_resolve_once (phi : Completion -> Prop) (c : Configuration) :
  phi (Resolved c) ->
  triple (Quiet s0 d q) (deferred_resolve c)
    (fun o w => o = Returned tt /\ Once phi s0 d q w /\
                deferred w = (d ++ [Resolved c])%list).
Proof.
  intros Hphi w (Hs & Hd & Hq). cbn. rewrite Hd.
  repeat split; try done. by eexists.
Qed.

Section Closures.
Variable options : Options.
Variable url_ : string.

(** The tiling scheme block: with a scheme in hand nothing has happened
    yet; otherwise the function is over, having rejected the deferred when
    no retry is granted and having issued a request when one is. *)
Lemma chooseTilingScheme_spec (phi : Completion -> Prop) (grant : bool)
    (name : option string) :
  (forall message, phi (Rejected message)) ->
  triple (Quiet s0 d q) (chooseTilingScheme options url_ grant name)
    (fun o w => match o with
                | Returned (Some _) => Quiet s0 d q w
                | Returned None =>
                    if grant then Retried s0 d q w else Once phi s0 d q w
                | Thrown _ => False
                end).
Proof.
  intros Hphi. unfold chooseTilingScheme.
  destruct (tilingScheme options) as [t|]; [by apply triple_ret|].
  case_match.
  { intros w (Hs & Hd & Hq). cbn. split; [by apply prefix_app_r|done]. }
  case_match.
  { intros w (Hs & Hd & Hq). cbn. split; [by apply prefix_app_r|done]. }
  intros w (Hs & Hd & Hq).
  unfold TileProviderError_handleError, requestMetadata, request, bind. cbn.
  destruct grant; cbn.
  - repeat split; try done. eexists. by rewrite Hq.
  - repeat split; try done. eexists. by rewrite Hd.
Qed.

(** The success closure: at most one of a completion and a new request;
    a completion when it returns and no retry is granted. *)
Lemma metadataSuccess_spec (phi : Completion -> Prop) (grant : bool)
    (xml : Document) :
  (forall c, ownRectangle s0 c -> phi c) ->
  triple (Quiet s0 d q) (metadataSuccess options url_ grant xml)
    (fun o w => After phi s0 d q w /\
                (grant = false -> o = Returned tt -> Once phi s0 d q w)).
Proof.
  intros Hphi. unfold metadataSuccess.
  do 5 (eapply triple_bind;
        [apply preserves_member|intros ?
        |by intros; split; [left|]]).
  eapply triple_bind; [apply (chooseTilingScheme_spec phi)| |by intros].
  { intros message. by apply Hphi. }
  intros [t|].
  2:{ apply triple_ret. intros w Hw. destruct grant.
      - split; [by right; right|done].
      - split; [by right; left|done]. }
  eapply triple_bind;
    [apply Rectangle_clone_quiet|
    |by intros ? ? [? ?]; split; [left|]].
  intros clone.
  eapply triple_bind with
    (R := fun o w => Quiet s0 d q w /\ forall r, o = Returned r -> length s0 <= r).
  - destruct clone as [r|].
    + apply triple_ret. intros w [HQ Hr]. split; [done|].
      intros ? [= <-]. by apply Hr.
    + intros w [HQ _]. by apply deriveRectangle_quiet.
  - intros r. cbn beta. apply triple_pure. intros Hr.
    specialize (Hr r eq_refl).
    eapply triple_bind;
      [by apply clampRectangle_quiet|intros []
      |by intros; split; [left|]].
    eapply triple_bind;
      [apply checkMinimumLevel_quiet|intros ?
      |by intros; split; [left|]].
    eapply triple_weaken; [apply (deferred_resolve_once phi); by apply Hphi|].
    intros o w (_ & ? & ?). split; [by right; left|done].
  - intros e w [HQ _]. by split; [left|].
Qed.

(** The failure closure completes the deferred, once, with a
    configuration. *)
Lemma metadataFailure_spec :
  triple (Quiet s0 d q) (metadataFailure options url_)
    (fun o w => o = Returned tt /\ Once (fun _ => True) s0 d q w /\
                exists c, deferred w = (d ++ [Resolved c])%list).
Proof.
  unfold metadataFailure.
  eapply triple_bind with
    (R := fun o w => Quiet s0 d q w /\ exists t, o = Returned t).
  - destruct (tilingScheme options) as [t|].
    + apply triple_ret. eauto.
    + apply construct_quiet.
  - intros t. apply triple_pure. intros _.
    eapply triple_weaken; [by apply (deferred_resolve_once (fun _ => True))|].
    intros o w (? & ? & ?). eauto.
  - by intros e w [_ [? ?]].
Qed.

End Closures.

End Quiet.

(** Whatever the outside world does, one invocation completes the deferred
    at most once and leaves the objects it found as they were.  While the
    deferred is not completed at most one request is outstanding; once it
    is, none. *)
Lemma settle_spec (s0 : list Rectangle) (d : list Completion) (o : Options)
    (u : string) (script : list Attempt) (settled : nat) (w : World) :
  s0 `prefix_of` store w ->
  (deferred w = d /\ length (requested w) <= S settled) \/
  ((exists c, deferred w = (d ++ [c])%list) /\ length (requested w) <= settled) ->
  (settle o u script settled w).1 = Returned tt /\
  AtMostOnce s0 d (settle o u script settled w).2.
Proof.
  revert settled w. induction script as [|a script IH]; intros settled w Hs Hw.
  { cbn. split; [done|]. split; [done|]. destruct Hw as [[? _]|[? _]]; auto. }
  cbn [settle]. destruct (Nat.ltb_spec settled (length (requested w))) as [Hlt|Hge].
  2:{ cbn. split; [done|]. split; [done|]. destruct Hw as [[? _]|[? _]]; auto. }
  destruct Hw as [[Hd Hlen]|[_ Hlen]]; [|lia].
  unfold bind, callback. cbn [fst snd].
  assert (HQ : Quiet s0 d (requested w) w) by done.
  assert (After (fun _ => True) s0 d (requested w)
            (match response a with
             | Loaded xml => metadataSuccess o u (retryGranted a) xml
             | Failed => metadataFailure o u
             end w).2) as Hafter.
  { destruct (response a) as [xml|].
    - by apply (metadataSuccess_spec s0 d (requested w) o u (fun _ => True)).
    - destruct (metadataFailure_spec s0 d (requested w) o u w HQ) as (_ & ? & _).
      by right; left. }
  destruct Hafter as [(? & ? & Hq)|[(? & Hq & c & ? & _)|(? & ? & r & Hq)]];
    apply IH; try done.
  - left. split; [done|]. rewrite Hq. lia.
  - right. split; [by eauto|]. rewrite Hq. lia.
  - left. split; [done|]. rewrite Hq, length_app. cbn. lia.
Qed.

(** ** The blocks of the success closure, evaluated *)

Lemma strictEquals_spec (v : option string) (literal : string) :
  strictEquals v literal = true <-> v = Some literal.
Proof.
  destruct v as [s|]; cbn; [|done].
  rewrite String.eqb_eq. naive_solver.
Qed.

Lemma strictEquals_decide (v : option string) (literal : string) :
  strictEquals v literal = bool_decide (v = Some literal).
Proof.
  apply eq_true_iff_eq. rewrite strictEquals_spec, bool_decide_eq_true. done.
Qed.

Lemma Rectangle_clone_eq (w : World) (r : ref) (v : Rectangle) :
  store w !! r = Some v ->
  Rectangle_clone (Some r) w =
  (Returned (Some (length (store w))), withStore w (store w ++ [v])).
Proof.
  intros Hr. unfold Rectangle_clone, bind.
  by rewrite (readRectangle_eq _ _ _ Hr).
Qed.

Lemma deriveRectangle_eq (options : Options) (w : World) (box : Node)
    (profile : option string) (t : TilingScheme) :
  deriveRectangle options (Some box) profile t w =
  (Returned (length (store w)),
   withStore w
     (store w ++
      [boundingBoxRectangle (defaultValue (flipXY options) false) box profile t])).
Proof.
  unfold deriveRectangle, boundingBoxRectangle, bind, member, ret, new_Rectangle.
  rewrite !strictEquals_decide.
  replace (bool_decide (profile = Some "geodetic" \/ profile = Some "mercator"))
    with (bool_decide (profile = Some "geodetic") ||
          bool_decide (profile = Some "mercator"))
    by by rewrite bool_decide_or.
  destruct (defaultValue (flipXY options) false);
    by destruct (instanceofGeographic t || _).
Qed.

Lemma checkMinimumLevel_eq (w : World) (r : ref) (t : TilingScheme)
    (v : Rectangle) (level level' : Number) :
  store w !! r = Some v ->
  heuristicMinimumLevel t v level = Some level' ->
  checkMinimumLevel r t level w = (Returned level', w).
Proof.
  intros Hr. unfold checkMinimumLevel, heuristicMinimumLevel, bind, gtb, tileCountOf.
  rewrite (readRectangle_eq _ _ _ Hr).
  destruct (positionToTileXY t (Rectangle_southwest v) level) as [sw|];
    destruct (positionToTileXY t (Rectangle_northeast v) level) as [ne|];
    cbn; by intros [= <-].
Qed.

Lemma clamp_then_check (w : World) (t : TilingScheme)
    (bounds start : Rectangle) (requested level : Number) :
  store w !! rectangleOf t = Some bounds ->
  heuristicMinimumLevel t (clampEdges bounds start) requested = Some level ->
  bind (clampRectangle (length (store w)) t)
       (fun _ => checkMinimumLevel (length (store w)) t requested)
       (withStore w (store w ++ [start])) =
  (Returned level, withStore w (store w ++ [clampEdges bounds start])).
Proof.
  intros Hb Hlevel. unfold bind.
  assert (Hlt : rectangleOf t < length (store w)) by by eapply lookup_lt_Some.
  erewrite (clampRectangle_eq _ _ _ start bounds); cycle 1.
  { lia. }
  { cbn. by rewrite list_lookup_middle. }
  { cbn. by apply lookup_app_l_Some. }
  cbn [store withStore].
  replace (<[length (store w):=clampEdges bounds start]> (store w ++ [start])%list)
    with (store w ++ [clampEdges bounds start])%list.
  2:{ rewrite insert_app_r_alt by done. by rewrite Nat.sub_diag. }
  rewrite withStore_withStore.
  erewrite checkMinimumLevel_eq; [done| |done].
  cbn. by rewrite list_lookup_middle.
Qed.

(** ** The success closure on a document it can use *)

Section SuccessPath.
Variables (options : Options) (url_ : string) (grant : bool).
Variables (xml : Document) (w w1 : World).
Variables (root formatNode firstSet lastSet setsNode : Node).
Variables (t : TilingScheme) (bounds start : Rectangle) (level : Number).

Hypothesis Hroot : head (documentChildNodes xml) = Some root.
Hypothesis Hformat : format (documentScan root) = Some formatNode.
Hypothesis Hfirst : head (tilesetsList (documentScan root)) = Some firstSet.
Hypothesis Hlast : last (tilesetsList (documentScan root)) = Some lastSet.
Hypothesis Hsets : tilesets (documentScan root) = Some setsNode.
Hypothesis Hscheme :
  chooseTilingScheme options url_ grant (getAttribute setsNode "profile") w =
  (Returned (Some t), w1).
Hypothesis Hbounds : store w1 !! rectangleOf t = Some bounds.
Hypothesis Hstart :
  startingRectangle options (bbox (documentScan root))
    (getAttribute setsNode "profile") t (store w1) = Some start.
Hypothesis Hlevel :
  heuristicMinimumLevel t (clampEdges bounds start)
    (requestedMinimumLevel options firstSet) = Some level.

(** The closure returns, having created one rectangle object, the clamped
    one, and having resolved the deferred with the configuration. *)
Lemma metadataSuccess_eq :
  metadataSuccess options url_ grant xml w =
  deferred_resolve
    (successConfiguration options url_ formatNode lastSet t
       (length (store w1)) level)
    (withStore w1 (store w1 ++ [clampEdges bounds start])).
Proof.
  unfold metadataSuccess, bind.
  rewrite Hroot. cbn [member ret]. fold (documentScan root).
  rewrite Hformat. cbn [member ret].
  rewrite Hfirst. cbn [member ret].
  rewrite Hlast. cbn [member ret].
  rewrite Hsets. cbn [member ret].
  rewrite Hscheme.
  unfold startingRectangle in Hstart.
  unfold requestedMinimumLevel in Hlevel.
  destruct (rectangle options) as [r0|].
  - rewrite (Rectangle_clone_eq _ _ _ Hstart). cbn [ret].
    pose proof (clamp_then_check w1 t bounds start _ level Hbounds Hlevel) as Hc.
    unfold bind in Hc.
    destruct (clampRectangle _ _ _) as [[[]|e] w2]; [|done].
    by rewrite Hc.
  - destruct (bbox (documentScan root)) as [box|]; [|done].
    injection Hstart as <-.
    cbn [Rectangle_clone ret]. rewrite deriveRectangle_eq.
    pose proof (clamp_then_check w1 t bounds _ _ level Hbounds Hlevel) as Hc.
    unfold bind in Hc.
    destruct (clampRectangle _ _ _) as [[[]|e] w2]; [|done].
    by rewrite Hc.
Qed.

Lemma metadataSuccess_final :
  let final := (metadataSuccess options url_ grant xml w).2 in
  let c := successConfiguration options url_ formatNode lastSet t
             (length (store w1)) level in
  (metadataSuccess options url_ grant xml w).1 = Returned tt /\
  deferred final = (deferred w1 ++ [Resolved c])%list /\
  store final !! cfgRectangle c = Some (clampEdges bounds start).
Proof.
  cbn zeta. rewrite metadataSuccess_eq. cbn. by rewrite list_lookup_middle.
Qed.


(** C7: each edge of the rectangle in the configuration is the edge of the
    starting rectangle (the caller's, or the one derived from the
    bounding box) unless that edge lies beyond the corresponding edge of
    the tiling scheme's rectangle, in which case it is that bound. *)
Theorem rectangle_clamped_to_scheme :
  let final := (metadataSuccess options url_ grant xml w).2 in
  exists c clamped,
    deferred final = (deferred w1 ++ [Resolved c])%list /\
    store final !! cfgRectangle c = Some clamped /\
    west clamped = (if PrimFloat.ltb (west start) (west bounds)
                    then west bounds else west start) /\
    east clamped = (if gtb (east start) (east bounds)
                    then east bounds else east start) /\
    south clamped = (if PrimFloat.ltb (south start) (south bounds)
                     then south bounds else south start) /\
    north clamped = (if gtb (north start) (north bounds)
                     then north bounds else north start).
Proof.
  destruct metadataSuccess_final as (_ & Hd & Hs). cbn zeta.
  eexists _, _. split; [exact Hd|]. split; [exact Hs|]. done.
Qed.

(** C6: without a rectangle override the rectangle that is clamped is the
    one of the bounding box: X and Y exchanged under the flip flag, degrees
    for a geographic scheme or a profile named geodetic or mercator,
    unprojected by the tiling scheme otherwise, southwest corner to
    northeast corner. *)
Theorem rectangle_from_bounding_box (box : Node) :
  rectangle options = None ->
  bbox (documentScan root) = Some box ->
  let final := (metadataSuccess options url_ grant xml w).2 in
  let derived := boundingBoxRectangle (defaultValue (flipXY options) false) box
                   (getAttribute setsNode "profile") t in
  deriveRectangle options (Some box) (getAttribute setsNode "profile") t w1 =
    (Returned (length (store w1)), withStore w1 (store w1 ++ [derived])) /\
  exists c,
    deferred final = (deferred w1 ++ [Resolved c])%list /\
    store final !! cfgRectangle c = Some (clampEdges bounds derived).
Proof.
  intros Hr Hbox. cbn zeta. split; [apply deriveRectangle_eq|].
  destruct metadataSuccess_final as (_ & Hd & Hs).
  pose proof Hstart as Hst. unfold startingRectangle in Hst.
  rewrite Hr, Hbox in Hst. injection Hst as <-.
  eexists. split; [exact Hd|exact Hs].
Qed.

End SuccessPath.

(** ** Exactly-once delivery *)

Lemma run_eq (o : Options) (u : string) (script : list Attempt)
    (objects : list Rectangle) :
  url o = Some u ->
  run (Some o) script objects =
  settle o u script 0 (requestMetadata o u (initialWorld objects)).2.
Proof.
  intros Hu. unfold run, createTileMapServiceImageryProvider, bind. cbn.
  by rewrite Hu.
Qed.

(** With no request outstanding the outside world has nothing to do. *)
Lemma settle_done (o : Options) (u : string) (script : list Attempt)
    (settled : nat) (w : World) :
  length (requested w) <= settled ->
  settle o u script settled w = (Returned tt, w).
Proof.
  intros Hlen. destruct script as [|a script]; [done|]. cbn [settle].
  by destruct (Nat.ltb_spec settled (length (requested w))); [lia|].
Qed.

(** The first attempt settles the request of the invocation itself. *)
Lemma run_cons (o : Options) (u : string) (a : Attempt) (rest : list Attempt)
    (objects : list Rectangle) :
  url o = Some u ->
  run (Some o) (a :: rest) objects =
  settle o u rest 1
    (match response a with
     | Loaded xml => metadataSuccess o u (retryGranted a) xml
     | Failed => metadataFailure o u
     end (requestMetadata o u (initialWorld objects)).2).2.
Proof. intros Hu. by rewrite (run_eq _ _ _ _ Hu). Qed.

Lemma Quiet_requested (o : Options) (u : string) (objects : list Rectangle) :
  Quiet objects [] [resourceUrl o u] (requestMetadata o u (initialWorld objects)).2.
Proof. done. Qed.

(** C1, as amended: an invocation with a url never completes the deferred
    twice, whatever the outside world does; it completes it exactly once
    when the request fails, and when the document arrives, no retry is
    granted and the success closure returns without raising an error. *)
Theorem deferred_completed_once (o : Options) (u : string)
    (script : list Attempt) (objects : list Rectangle) :
  url o = Some u ->
  let final := (run (Some o) script objects).2 in
  length (deferred final) <= 1 /\
  forall a rest, script = a :: rest ->
    match response a with
    | Failed => length (deferred final) = 1
    | Loaded xml =>
        retryGranted a = false ->
        (metadataSuccess o u false xml
           (requestMetadata o u (initialWorld objects)).2).1 = Returned tt ->
        length (deferred final) = 1
    end.
Proof.
  intros Hu final. subst final. split.
  - rewrite (run_eq _ _ _ _ Hu).
    destruct (settle_spec objects [] o u script 0
                (requestMetadata o u (initialWorld objects)).2)
      as [_ [_ [Hd|[c Hd]]]]; [done|left; split; [done|cbn; lia]| |];
      rewrite Hd; cbn; lia.
  - intros a rest ->. rewrite (run_cons _ _ _ _ _ Hu).
    pose proof (Quiet_requested o u objects) as HQ.
    destruct (response a) as [xml|].
    + intros -> Hret.
      destruct (metadataSuccess_spec objects [] _ o u (fun _ => True) false xml
                  (fun _ _ => I) _ HQ) as [_ Honce].
      destruct (Honce eq_refl Hret) as (_ & Hq & c & Hc & _).
      rewrite settle_done by (rewrite Hq; cbn; lia). cbn [snd]. by rewrite Hc.
    + destruct (metadataFailure_spec objects [] _ o u _ HQ)
        as (_ & (_ & Hq & c & Hc & _) & _).
      rewrite settle_done by (rewrite Hq; cbn; lia). cbn [snd]. by rewrite Hc.
Qed.

(** ** The fallback *)

(** C3: when the request or the parse fails the invocation still resolves
    the deferred, with the caller's overrides where present and otherwise
    extension png, 256 by 256 tiles, minimum level 0, no maximum level, a
    new Web Mercator scheme and that scheme's own rectangle; nothing is
    reported on the error event and nothing is rejected. *)
Theorem fallback_configuration (o : Options) (u : string) (a : Attempt)
    (rest : list Attempt) (objects : list Rectangle) :
  url o = Some u -> response a = Failed ->
  let t := defaultValue (tilingScheme o)
             (schemeObject false (WebMercatorMath (ellipsoid o)) (length objects)) in
  let final := (run (Some o) (a :: rest) objects).2 in
  (run (Some o) (a :: rest) objects).1 = Returned tt /\
  deferred final =
    [Resolved
       {| cfgUrl := joinUrls u ("{z}/{x}/{reverseY}." ++
                                defaultValue (fileExtension o) "png");
          cfgTilingScheme := t;
          cfgRectangle := defaultValue (rectangle o) (rectangleOf t);
          cfgTileWidth := defaultValue (tileWidth o) 256%float;
          cfgTileHeight := defaultValue (tileHeight o) 256%float;
          cfgMinimumLevel := defaultValue (minimumLevel o) 0%float;
          cfgMaximumLevel := maximumLevel o;
          cfgProxy := proxy o;
          cfgTileDiscardPolicy := tileDiscardPolicy o;
          cfgCredit := credit o |}] /\
  errorEvent final = [] /\
  (tilingScheme o = None ->
   store final !! rectangleOf t =
   Some (mathRectangle (WebMercatorMath (ellipsoid o)))).
Proof.
  intros Hu Hfail. cbn zeta. rewrite (run_cons _ _ _ _ _ Hu), Hfail.
  unfold metadataFailure, bind.
  destruct (tilingScheme o) as [t|]; cbn;
    (rewrite settle_done by (cbn; lia)); cbn; repeat split; try done.
  intros _. by rewrite list_lookup_middle.
Qed.

(** C9: on the fallback path the caller's rectangle object itself goes into
    the configuration, with the values it had, and the caller's minimum
    level is taken as it is: no clamping, no tile count. *)
Theorem fallback_overrides_verbatim (o : Options) (u : string) (a : Attempt)
    (rest : list Attempt) (objects : list Rectangle) (r : ref) (v : Rectangle)
    (m : Number) :
  url o = Some u -> response a = Failed ->
  rectangle o = Some r -> objects !! r = Some v -> minimumLevel o = Some m ->
  let final := (run (Some o) (a :: rest) objects).2 in
  exists c, deferred final = [Resolved c] /\
            cfgRectangle c = r /\
            store final !! r = Some v /\
            cfgMinimumLevel c = m.
Proof.
  intros Hu Hfail Hr Hv Hm. cbn zeta. rewrite (run_cons _ _ _ _ _ Hu), Hfail.
  unfold metadataFailure, bind. rewrite Hr, Hm.
  destruct (tilingScheme o) as [t|]; cbn;
    (rewrite settle_done by (cbn; lia)); cbn; eexists; repeat split; try done.
  by apply lookup_app_l_Some.
Qed.

(** ** Clamping *)

Lemma clampEdges_idempotent (bounds r : Rectangle) :
  clampEdges bounds (clampEdges bounds r) = clampEdges bounds r.
Proof.
  destruct bounds as [bw bs be bn], r as [rw rs re rn].
  unfold clampEdges; cbn. f_equal.
  - destruct (PrimFloat.ltb rw bw) eqn:E; [by destruct (PrimFloat.ltb bw bw)|by rewrite E].
  - destruct (PrimFloat.ltb rs bs) eqn:E; [by destruct (PrimFloat.ltb bs bs)|by rewrite E].
  - destruct (PrimFloat.ltb be re) eqn:E; [by destruct (PrimFloat.ltb be be)|by rewrite E].
  - destruct (PrimFloat.ltb bn rn) eqn:E; [by destruct (PrimFloat.ltb bn bn)|by rewrite E].
Qed.

Lemma clampRectangle_dangling (w : World) (r : ref) (t : TilingScheme) :
  store w !! r = None \/ store w !! rectangleOf t = None ->
  clampRectangle r t w = (Thrown TypeError, w).
Proof.
  intros Hd. unfold clampRectangle, clampWest, bind, readRectangle.
  destruct (store w !! r); [|done].
  destruct Hd as [?|Hd]; [done|]. by rewrite Hd.
Qed.

(** C8: clamping a rectangle that has been clamped to the same tiling
    scheme changes nothing: running the block twice gives the result and
    the store of running it once. *)
Theorem clamping_idempotent (w : World) (r : ref) (t : TilingScheme) :
  bind (clampRectangle r t) (fun _ => clampRectangle r t) w = clampRectangle r t w.
Proof.
  unfold bind at 1.
  destruct (store w !! r) as [v|] eqn:Hr;
    [|by rewrite clampRectangle_dangling by auto].
  destruct (store w !! rectangleOf t) as [b|] eqn:Hb;
    [|by rewrite clampRectangle_dangling by auto].
  destruct (decide (r = rectangleOf t)) as [->|Hne].
  - by rewrite !(clampRectangle_alias _ _ _ Hb).
  - assert (Hlt : r < length (store w)) by by eapply lookup_lt_Some.
    rewrite (clampRectangle_eq _ _ _ _ _ Hne Hr Hb).
    erewrite clampRectangle_eq; [|done| |]; cycle 1.
    { cbn. by apply list_lookup_insert_eq. }
    { cbn. by rewrite list_lookup_insert_ne. }
    cbn. by rewrite list_insert_insert_eq, clampEdges_idempotent.
Qed.

(** ** The caller's rectangle *)

(** C10: the object passed as [options.rectangle] holds, after the
    invocation, the values the caller supplied, whatever the outside world
    did; and a configuration resolved by the success closure carries
    another object, the clone. *)
Theorem caller_rectangle_not_mutated (o : Options) (u : string)
    (script : list Attempt) (objects : list Rectangle) (r : ref) (v : Rectangle) :
  url o = Some u -> rectangle o = Some r -> objects !! r = Some v ->
  let final := (run (Some o) script objects).2 in
  store final !! r = Some v /\
  forall a xml c, script = [a] -> response a = Loaded xml ->
    Resolved c ∈ deferred final -> cfgRectangle c <> r.
Proof.
  intros Hu Hr Hv. cbn zeta. split.
  - rewrite (run_eq _ _ _ _ Hu).
    destruct (settle_spec objects [] o u script 0
                (requestMetadata o u (initialWorld objects)).2)
      as [_ [Hpre _]]; [done|left; split; [done|cbn; lia]|].
    by eapply prefix_lookup_Some.
  - intros a xml c -> Hxml. rewrite (run_cons _ _ _ _ _ Hu), Hxml.
    cbn [settle]. unfold ret. cbn [snd].
    destruct (metadataSuccess_spec objects [] _ o u (ownRectangle objects)
                (retryGranted a) xml (fun _ Hc => Hc)
                _ (Quiet_requested o u objects))
      as [[(_ & Hd & _)|[(_ & _ & c' & Hd & Hown)|(_ & Hd & _)]] _];
      intros Hin; rewrite Hd in Hin.
    + by apply elem_of_nil in Hin.
    + apply list_elem_of_singleton in Hin as <-. cbn in Hown.
      apply lookup_lt_Some in Hv. lia.
    + by apply elem_of_nil in Hin.
Qed.

(** ** The tiling scheme block, case by case *)




Lemma chooseTilingScheme_unsupported (o : Options) (u : string) (grant : bool)
    (profile : option string) (w : World) :
  tilingScheme o = None -> ~ supportedProfile profile ->
  chooseTilingScheme o u grant profile w =
  (let message := unsupportedProfileMessage u profile in
   e <- TileProviderError_handleError grant message (requestMetadata o u);;
   setMetadataError e;;;
   (if negb (retry e) then deferred_reject message else ret tt);;;
   ret None) w.
Proof.
  intros Ht Hp. unfold chooseTilingScheme. rewrite Ht.
  rewrite !strictEquals_decide. unfold supportedProfile in Hp.
  rewrite !bool_decide_eq_false_2 by (intros ?; apply Hp; auto).
  done.
Qed.


(** ** The success closure on an unsupported profile *)

Section Unsupported.
Variables (o : Options) (u : string) (xml : Document) (w : World).
Variables (root formatNode firstSet setsNode : Node).
Hypothesis Hroot : head (documentChildNodes xml) = Some root.
Hypothesis Hformat : format (documentScan root) = Some formatNode.
Hypothesis Hfirst : head (tilesetsList (documentScan root)) = Some firstSet.
Hypothesis Hsets : tilesets (documentScan root) = Some setsNode.
Hypothesis Hscheme : tilingScheme o = None.
Hypothesis Hprofile : ~ supportedProfile (getAttribute setsNode "profile").

(** The error is reported and recorded; the deferred is rejected when no
    retry is granted, and the request is issued again when one is. *)
Lemma metadataSuccess_unsupported (grant : bool) :
  metadataSuccess o u grant xml w =
  (let message := unsupportedProfileMessage u (getAttribute setsNode "profile") in
   (Returned tt,
    {| store := store w;
       deferred := if grant then deferred w
                   else (deferred w ++ [Rejected message])%list;
       metadataError := Some {| errorMessage := message; retry := grant |};
       errorEvent := errorEvent w ++ [message];
       requested := if grant then (requested w ++ [resourceUrl o u])%list
                    else requested w |})).
Proof.
  destruct (head_last_is_Some _ _ Hfirst) as [lastSet Hlast].
  unfold metadataSuccess, bind.
  rewrite Hroot. cbn [member ret]. fold (documentScan root).
  rewrite Hformat. cbn [member ret].
  rewrite Hfirst. cbn [member ret].
  rewrite Hlast. cbn [member ret].
  rewrite Hsets. cbn [member ret].
  rewrite (chooseTilingScheme_unsupported _ _ _ _ _ Hscheme Hprofile).
  by destruct grant.
Qed.

End Unsupported.


(** ** No error on a document that has what the closure reads *)



End Properties.

(** ** Further properties of the closures *)

Section Further.
Context `{Collaborators}.

(** *** The scan of the document *)

Lemma scanTileSetNodes_filter (nodes acc : list Node) :
  scanTileSetNodes nodes acc =
  (acc ++ List.filter (fun m => regexTest "tileset" (nodeName m)) nodes)%list.
Proof.
  unfold scanTileSetNodes. revert acc.
  induction nodes as [|n nodes IH]; intros acc; cbn; [by rewrite app_nil_r|].
  rewrite IH. destruct (regexTest "tileset" (nodeName n)); [|done].
  by rewrite <- app_assoc.
Qed.

Lemma scanNode_roles (s : Scan) (n : Node) :
  format (scanNode s n) = (if isFormatNode n then Some n else format s) /\
  tilesets (scanNode s n) = (if isTileSetsNode n then Some n else tilesets s) /\
  bbox (scanNode s n) = (if isBoundingBoxNode n then Some n else bbox s) /\
  srs (scanNode s n) = (if isSrsNode n then Some (textContent n) else srs s) /\
  tilesetsList (scanNode s n) =
    (tilesetsList s ++ if isTileSetsNode n then tileSetEntries n else [])%list.
Proof.
  unfold scanNode, isSrsNode, isBoundingBoxNode, isTileSetsNode, isFormatNode,
    tileSetEntries.
  destruct (regexTest "tileformat" (nodeName n));
    destruct (regexTest "tilesets" (nodeName n));
    destruct (regexTest "boundingbox" (nodeName n));
    destruct (regexTest "srs" (nodeName n)); cbn;
    by rewrite ?scanTileSetNodes_filter, ?app_nil_r.
Qed.

(** The container variable and the list of entries after the scan. *)
Lemma documentScan_tilesets (root : Node) :
  tilesets (documentScan root)
  = last (List.filter isTileSetsNode (childNodes root)) /\
  tilesetsList (documentScan root)
  = concat (map tileSetEntries (List.filter isTileSetsNode (childNodes root))).
Proof.
  unfold documentScan.
  induction (childNodes root) as [|n nodes [Ht Hl]] using rev_ind; [done|].
  rewrite fold_left_app, !List.filter_app. cbn [fold_left List.filter].
  destruct (scanNode_roles (fold_left scanNode nodes emptyScan) n)
    as (_ & -> & _ & _ & ->).
  rewrite Ht, Hl.
  destruct (isTileSetsNode n);
    rewrite ?app_nil_r, ?last_snoc, ?map_app, ?concat_app; cbn;
    by rewrite ?app_nil_r.
Qed.

(** X1: what the two loops of lines 123-142 leave in the five variables:
    each of [format], [tilesets], [bbox] and [srs] comes from the last child
    of the root with that role, and [tilesetsList] holds the tileset
    entries of every container, in document order. *)
Theorem document_scan_roles (root : Node) :
  let s := documentScan root in
  format s = last (List.filter isFormatNode (childNodes root)) /\
  tilesets s = last (List.filter isTileSetsNode (childNodes root)) /\
  bbox s = last (List.filter isBoundingBoxNode (childNodes root)) /\
  srs s = textContent <$> last (List.filter isSrsNode (childNodes root)) /\
  tilesetsList s =
    concat (map tileSetEntries (List.filter isTileSetsNode (childNodes root))).
Proof.
  cbn zeta. unfold documentScan.
  induction (childNodes root) as [|n nodes IH] using rev_ind; [done|].
  destruct IH as (Hf & Ht & Hb & Hs & Hl).
  rewrite fold_left_app, !List.filter_app. cbn [fold_left List.filter].
  destruct (scanNode_roles (fold_left scanNode nodes emptyScan) n)
    as (-> & -> & -> & -> & ->).
  rewrite Hf, Ht, Hb, Hs, Hl.
  destruct (isFormatNode n), (isTileSetsNode n), (isBoundingBoxNode n),
    (isSrsNode n);
    rewrite ?app_nil_r, ?last_snoc, ?map_app, ?concat_app; cbn;
    by rewrite ?app_nil_r.
Qed.

(** X2: whenever the scan has collected a tileset entry it has also set
    the container variable, so line 149 cannot raise once line 147 has
    passed; and every entry collected is a child of some child of the
    root. *)
Theorem tileset_entries_have_container (root : Node) :
  tilesetsList (documentScan root) <> [] ->
  (exists container, tilesets (documentScan root) = Some container /\
                     In container (childNodes root)) /\
  forall entry, In entry (tilesetsList (documentScan root)) ->
    exists container, In container (childNodes root) /\
                      In entry (childNodes container).
Proof.
  destruct (documentScan_tilesets root) as [Ht Hl].
  rewrite Ht, Hl. intros Hne. split.
  - destruct (List.filter isTileSetsNode (childNodes root)) as [|c l] eqn:E;
      [done|].
    destruct (last (c :: l)) as [container|] eqn:El;
      [|by apply last_None in El].
    exists container. split; [done|].
    apply last_Some in El as [l' El].
    assert (Hin : In container (List.filter isTileSetsNode (childNodes root))).
    { rewrite E, El. apply in_or_app. right. by left. }
    by apply List.filter_In in Hin as [? _].
  - intros entry Hin. apply in_concat in Hin as (entries & Hm & He).
    apply in_map_iff in Hm as (container & <- & Hc).
    apply List.filter_In in Hc as [Hc _].
    apply List.filter_In in He as [He _]. eauto.
Qed.

(** *** Errors *)

(** X3: without a url (an options object without the property, or no
    options object at all) the function throws the developer error before
    anything else: no request is issued, the deferred is not touched, and
    nothing the outside world does afterwards changes that. *)
Theorem missing_url_throws (options : option Options) (script : list Attempt)
    (objects : list Rectangle) :
  url (defaultValue options noOptions) = None ->
  run options script objects =
  (Thrown (DeveloperError "options.url is required."), initialWorld objects).
Proof.
  intros Hu. unfold run, createTileMapServiceImageryProvider, bind.
  by rewrite Hu.
Qed.

(** X4: a document without root element, a root without format section,
    or a scan without tileset entry makes the success closure raise a
    [TypeError] at once, whatever the options are (overrides for every
    value included): nothing is created, reported, requested or
    completed. *)
Theorem missing_section_raises (o : Options) (u : string) (grant : bool)
    (xml : Document) (w : World) :
  match head (documentChildNodes xml) with
  | None => True
  | Some root =>
      format (documentScan root) = None \/ tilesetsList (documentScan root) = []
  end ->
  metadataSuccess o u grant xml w = (Thrown TypeError, w).
Proof.
  unfold metadataSuccess, bind.
  destruct (head (documentChildNodes xml)) as [root|]; [|done].
  cbn [member ret]. fold (documentScan root).
  destruct (format (documentScan root)) as [f|]; [|done].
  intros [?|Hl]; [done|]. cbn [member ret]. by rewrite Hl.
Qed.

(** X5: when the caller gives no rectangle and the document has no
    bounding box, the success closure raises a [TypeError] after the tiling
    scheme has been chosen: a scheme created for the profile stays in the
    store, but nothing is reported, requested or completed. *)
Theorem missing_bounding_box_raises (o : Options) (u : string) (grant : bool)
    (xml : Document) (w w1 : World) (root formatNode firstSet setsNode : Node)
    (t : TilingScheme) :
  head (documentChildNodes xml) = Some root ->
  format (documentScan root) = Some formatNode ->
  head (tilesetsList (documentScan root)) = Some firstSet ->
  tilesets (documentScan root) = Some setsNode ->
  chooseTilingScheme o u grant (getAttribute setsNode "profile") w =
    (Returned (Some t), w1) ->
  rectangle o = None ->
  bbox (documentScan root) = None ->
  metadataSuccess o u grant xml w = (Thrown TypeError, w1) /\
  deferred w1 = deferred w /\ requested w1 = requested w /\
  errorEvent w1 = errorEvent w /\ store w `prefix_of` store w1.
Proof.
  intros Hroot Hformat Hfirst Hsets Hscheme Hrect Hbox.
  destruct (head_last_is_Some _ _ Hfirst) as [lastSet Hlast].
  split.
  - unfold metadataSuccess, bind.
    rewrite Hroot. cbn [member ret]. fold (documentScan root).
    rewrite Hformat. cbn [member ret].
    rewrite Hfirst. cbn [member ret].
    rewrite Hlast. cbn [member ret].
    rewrite Hsets. cbn [member ret].
    rewrite Hscheme, Hrect, Hbox. done.
  - revert Hscheme. unfold chooseTilingScheme.
    destruct (tilingScheme o) as [t'|].
    { intros [= <- <-]. done. }
    case_match.
    { intros [= <- <-]. cbn. repeat split; try done. by apply prefix_app_r. }
    case_match.
    { intros [= <- <-]. cbn. repeat split; try done. by apply prefix_app_r. }
    unfold TileProviderError_handleError, requestMetadata, request, bind. cbn.
    by destruct grant.
Qed.

(** X6: the tile-count block never changes the world; it raises a
    [TypeError] exactly when the tiling scheme has no tile for one of the
    two corners (or the rectangle is no object), and otherwise gives 0 or
    the level it was given, nothing else. *)
Theorem checkMinimumLevel_behaviour (w : World) (r : ref) (t : TilingScheme)
    (level : Number) :
  (checkMinimumLevel r t level w).2 = w /\
  match (checkMinimumLevel r t level w).1 with
  | Returned level' =>
      (level' = 0%float \/ level' = level) /\
      exists v, store w !! r = Some v /\
        is_Some (positionToTileXY t (Rectangle_southwest v) level) /\
        is_Some (positionToTileXY t (Rectangle_northeast v) level)
  | Thrown e =>
      e = TypeError /\
      match store w !! r with
      | None => True
      | Some v =>
          positionToTileXY t (Rectangle_southwest v) level = None \/
          positionToTileXY t (Rectangle_northeast v) level = None
      end
  end.
Proof.
  unfold checkMinimumLevel, bind, readRectangle.
  destruct (store w !! r) as [v|]; [|done].
  destruct (positionToTileXY t (Rectangle_northeast v) level) as [ne|] eqn:Hne;
    [|cbn; auto].
  destruct (positionToTileXY t (Rectangle_southwest v) level) as [sw|] eqn:Hsw;
    [|cbn; auto].
  cbn. split; [done|]. split; [case_match; auto|].
  exists v. rewrite ?Hne, ?Hsw. eauto.
Qed.

(** *** What one closure call leaves behind *)

Lemma chooseTilingScheme_requests (s0 : list Rectangle) (d : list Completion)
    (q : list string) (o : Options) (u : string) (grant : bool)
    (name : option string) :
  triple (Quiet s0 d q) (chooseTilingScheme o u grant name)
    (fun out w => match out with
                  | Returned (Some _) => Quiet s0 d q w
                  | Returned None =>
                      requested w = q \/
                      requested w = (q ++ [resourceUrl o u])%list
                  | Thrown _ => False
                  end).
Proof.
  unfold chooseTilingScheme.
  destruct (tilingScheme o) as [t|]; [by apply triple_ret|].
  case_match.
  { intros w (Hs & Hd & Hq). cbn. split; [by apply prefix_app_r|done]. }
  case_match.
  { intros w (Hs & Hd & Hq). cbn. split; [by apply prefix_app_r|done]. }
  intros w (Hs & Hd & Hq).
  unfold TileProviderError_handleError, requestMetadata, request, bind. cbn.
  destruct grant; cbn; rewrite Hq; auto.
Qed.

(** When the success closure raises it has completed nothing and
    requested nothing; in any case it has issued at most one request, to
    the resource URL. *)
Lemma metadataSuccess_outcomes (s0 : list Rectangle) (d : list Completion)
    (q : list string) (o : Options) (u : string) (grant : bool)
    (xml : Document) :
  triple (Quiet s0 d q) (metadataSuccess o u grant xml)
    (fun out w =>
       (forall e, out = Thrown e -> Quiet s0 d q w) /\
       (requested w = q \/ requested w = (q ++ [resourceUrl o u])%list)).
Proof.
  assert (Hq : forall (out : Outcome unit) w, Quiet s0 d q w ->
    (forall e, out = Thrown e -> Quiet s0 d q w) /\
    (requested w = q \/ requested w = (q ++ [resourceUrl o u])%list)).
  { intros out w HQ. split; [done|]. left. apply HQ. }
  unfold metadataSuccess.
  do 5 (eapply triple_bind;
        [apply preserves_member|intros ?|by intros; apply Hq]).
  eapply triple_bind; [apply chooseTilingScheme_requests| |by intros].
  intros [t|]; [|by apply triple_ret].
  eapply triple_bind;
    [apply Rectangle_clone_quiet| |by intros ? ? [? ?]; apply Hq].
  intros clone.
  eapply triple_bind with
    (R := fun out w => Quiet s0 d q w /\
                       forall r, out = Returned r -> length s0 <= r).
  - destruct clone as [r|].
    + apply triple_ret. intros w [HQ Hr]. split; [done|].
      intros ? [= <-]. by apply Hr.
    + intros w [HQ _]. by apply deriveRectangle_quiet.
  - intros r. cbn beta. apply triple_pure. intros Hr.
    specialize (Hr r eq_refl).
    eapply triple_bind;
      [by apply clampRectangle_quiet|intros []|by intros; apply Hq].
    eapply triple_bind;
      [apply checkMinimumLevel_quiet|intros ?|by intros; apply Hq].
    intros w (Hs & Hd & Hr'). cbn. split; [done|]. by left.
  - intros e w [HQ _]. by apply Hq.
Qed.

(** X7: when the success closure raises on the first document, the
    exception reaches nobody and the invocation is stuck: the deferred is
    never completed and no further request is issued, whatever the outside
    world would have done next; the caller's objects are as they were. *)
Theorem raising_closure_leaves_pending (o : Options) (u : string) (a : Attempt)
    (rest : list Attempt) (objects : list Rectangle) (xml : Document)
    (e : Exception) :
  url o = Some u -> response a = Loaded xml ->
  (metadataSuccess o u (retryGranted a) xml
     (requestMetadata o u (initialWorld objects)).2).1 = Thrown e ->
  let final := (run (Some o) (a :: rest) objects).2 in
  (run (Some o) (a :: rest) objects).1 = Returned tt /\
  deferred final = [] /\
  requested final = [resourceUrl o u] /\
  objects `prefix_of` store final.
Proof.
  intros Hu Hxml Hthrown. cbn zeta. rewrite (run_cons _ _ _ _ _ Hu), Hxml.
  destruct (metadataSuccess_outcomes objects [] _ o u (retryGranted a) xml
              _ (Quiet_requested o u objects)) as [HQ _].
  destruct (HQ e Hthrown) as (Hs & Hd & Hq).
  rewrite settle_done by (rewrite Hq; cbn; lia). done.
Qed.


(** *** The requests of one invocation *)



(** *** Retries *)

Lemma metadataFailure_eq (o : Options) (u : string) (w : World) :
  metadataFailure o u w =
  (Returned tt,
   {| store := match tilingScheme o with
               | Some _ => store w
               | None => store w ++ [mathRectangle (WebMercatorMath (ellipsoid o))]
               end;
      deferred := deferred w ++
                  [Resolved (fallbackConfiguration o u (length (store w)))];
      metadataError := metadataError w;
      errorEvent := errorEvent w;
      requested := requested w |}).
Proof.
  unfold metadataFailure, fallbackConfiguration, bind.
  by destruct (tilingScheme o).
Qed.

(** A run of documents with unsupported profiles, a retry granted each
    time: each one is reported and answered by one more request; nothing
    else changes. *)
Lemma settle_retries (o : Options) (u : string)
    (retries : list (Document * option string)) (tail : list Attempt) :
  tilingScheme o = None ->
  Forall (fun r => UnsupportedDocument r.1 r.2) retries ->
  forall settled w, length (requested w) = S settled ->
  settle o u (map (fun r => grantedRetry r.1) retries ++ tail) settled w =
  settle o u tail (settled + length retries)
    {| store := store w;
       deferred := deferred w;
       metadataError :=
         match last retries with
         | Some r => Some {| errorMessage := unsupportedProfileMessage u r.2;
                             retry := true |}
         | None => metadataError w
         end;
       errorEvent :=
         errorEvent w ++ map (fun r => unsupportedProfileMessage u r.2) retries;
       requested :=
         requested w ++ replicate (length retries) (resourceUrl o u) |}.
Proof.
  intros Hscheme Hall. induction Hall as [|[xml profile] retries Hr _ IH];
    intros settled w Hlen.
  { cbn. rewrite Nat.add_0_r, !app_nil_r. by destruct w. }
  destruct Hr as (root & formatNode & firstSet & setsNode & Hroot & Hformat &
                  Hfirst & Hsets & Hp & Hunsupported).
  cbn in Hp. subst profile.
  cbn [map app settle fst snd].
  destruct (Nat.ltb_spec settled (length (requested w))) as [_|?]; [|lia].
  unfold bind, callback. cbn [fst snd response retryGranted grantedRetry].
  rewrite (metadataSuccess_unsupported o u xml w root formatNode firstSet
             setsNode Hroot Hformat Hfirst Hsets Hscheme Hunsupported).
  cbn zeta. cbn [snd]. rewrite IH by (cbn; rewrite length_app; cbn; lia).
  cbn [store deferred metadataError errorEvent requested length].
  rewrite Nat.add_succ_r, last_cons, <- !app_assoc. cbn [app map replicate snd].
  by destruct (last retries).
Qed.

(** X10: documents with unsupported profiles, a retry granted each time,
    leave the deferred pending as long as the last request is not settled;
    when that request fails the invocation resolves with the same fallback
    configuration as if the first request had failed.  Every error was
    reported, in order, and every retry went to the resource URL. *)
Theorem retries_then_failure (o : Options) (u : string)
    (retries : list (Document * option string)) (a : Attempt)
    (rest : list Attempt) (objects : list Rectangle) :
  url o = Some u -> tilingScheme o = None ->
  Forall (fun r => UnsupportedDocument r.1 r.2) retries ->
  response a = Failed ->
  let script := map (fun r => grantedRetry r.1) retries in
  let messages := map (fun r => unsupportedProfileMessage u r.2) retries in
  let pending := (run (Some o) script objects).2 in
  let final := (run (Some o) (script ++ a :: rest) objects).2 in
  (deferred pending = [] /\ errorEvent pending = messages /\
   requested pending = replicate (S (length retries)) (resourceUrl o u)) /\
  (deferred final = [Resolved (fallbackConfiguration o u (length objects))] /\
   errorEvent final = messages /\
   requested final = replicate (S (length retries)) (resourceUrl o u) /\
   store final = (objects ++ [mathRectangle (WebMercatorMath (ellipsoid o))])%list).
Proof.
  intros Hu Hscheme Hall Hfail. cbn zeta. split.
  - rewrite (run_eq _ _ _ _ Hu).
    rewrite <- (app_nil_r (map _ retries)).
    rewrite (settle_retries o u retries [] Hscheme Hall 0) by done.
    cbn. done.
  - rewrite (run_eq _ _ _ _ Hu).
    rewrite (settle_retries o u retries (a :: rest) Hscheme Hall 0) by done.
    cbn [settle requested requestMetadata request snd initialWorld Nat.add].
    destruct (Nat.ltb_spec (length retries)
                (length (([] ++ [resourceUrl o u]) ++
                         replicate (length retries) (resourceUrl o u))))
      as [_|Hge].
    2:{ rewrite length_app, length_replicate in Hge. cbn in Hge. lia. }
    unfold bind, callback. rewrite Hfail, metadataFailure_eq. cbn [fst snd].
    rewrite settle_done
      by (cbn; rewrite length_replicate; lia).
    cbn. by rewrite Hscheme.
Qed.

(** *** The configuration of the success closure *)

Lemma ltb_irreflexive (v : Number) : PrimFloat.ltb v v = false.
Proof.
  rewrite ltb_spec. unfold SFltb, SFcompare.
  destruct (Prim2SF v) as [[]|[]| |[] m e]; try done;
    by rewrite Z.compare_refl, Pos.compare_refl.
Qed.

Section SuccessConfiguration.
Variables (options : Options) (url_ : string) (grant : bool).
Variables (xml : Document) (w w1 : World).
Variables (root formatNode firstSet lastSet setsNode : Node).
Variables (t : TilingScheme) (bounds start : Rectangle) (level : Number).

Hypothesis Hroot : head (documentChildNodes xml) = Some root.
Hypothesis Hformat : format (documentScan root) = Some formatNode.
Hypothesis Hfirst : head (tilesetsList (documentScan root)) = Some firstSet.
Hypothesis Hlast : last (tilesetsList (documentScan root)) = Some lastSet.
Hypothesis Hsets : tilesets (documentScan root) = Some setsNode.
Hypothesis Hscheme :
  chooseTilingScheme options url_ grant (getAttribute setsNode "profile") w =
  (Returned (Some t), w1).
Hypothesis Hbounds : store w1 !! rectangleOf t = Some bounds.
Hypothesis Hstart :
  startingRectangle options (bbox (documentScan root))
    (getAttribute setsNode "profile") t (store w1) = Some start.
Hypothesis Hlevel :
  heuristicMinimumLevel t (clampEdges bounds start)
    (requestedMinimumLevel options firstSet) = Some level.

Lemma metadataSuccess_result :
  metadataSuccess options url_ grant xml w =
  (Returned tt,
   {| store := store w1 ++ [clampEdges bounds start];
      deferred := deferred w1 ++
        [Resolved (successConfiguration options url_ formatNode lastSet t
                     (length (store w1)) level)];
      metadataError := metadataError w1;
      errorEvent := errorEvent w1;
      requested := requested w1 |}).
Proof.
  by rewrite (metadataSuccess_eq options url_ grant xml w w1 root formatNode
                firstSet lastSet setsNode t bounds start level).
Qed.

(** X11: in the configuration of the success closure every caller override
    wins over the document: the tile size is the override or the width
    and height attributes of the format node, the maximum level the
    override or the order of the last tileset entry, and the url template
    ends with the override or the extension attribute, or with "null" when
    there is neither; proxy, discard policy and credit are the caller's. *)
Theorem success_configuration_fields :
  let final := (metadataSuccess options url_ grant xml w).2 in
  exists c,
    deferred final = (deferred w1 ++ [Resolved c])%list /\
    cfgTilingScheme c = t /\
    cfgTileWidth c =
      defaultValue (tileWidth options) (parseInt (getAttribute formatNode "width")) /\
    cfgTileHeight c =
      defaultValue (tileHeight options) (parseInt (getAttribute formatNode "height")) /\
    cfgMaximumLevel c =
      Some (defaultValue (maximumLevel options)
              (parseInt (getAttribute lastSet "order"))) /\
    cfgUrl c =
      joinUrls url_
        ("{z}/{x}/{reverseY}." ++
         match fileExtension options, getAttribute formatNode "extension" with
         | Some e, _ => e
         | None, Some e => e
         | None, None => "null"
         end) /\
    cfgProxy c = proxy options /\
    cfgTileDiscardPolicy c = tileDiscardPolicy options /\
    cfgCredit c = credit options.
Proof.
  cbn zeta. rewrite metadataSuccess_result. eexists. split; [done|]. cbn.
  repeat split.
  by destruct (fileExtension options), (getAttribute formatNode "extension").
Qed.

(** X12: the success closure creates exactly one rectangle object, the one
    of the configuration; it is not the tiling scheme's rectangle, which
    keeps its values like every other object that existed. *)
Theorem scheme_rectangle_untouched :
  let final := (metadataSuccess options url_ grant xml w).2 in
  exists c,
    deferred final = (deferred w1 ++ [Resolved c])%list /\
    cfgRectangle c <> rectangleOf (cfgTilingScheme c) /\
    store final !! rectangleOf (cfgTilingScheme c) = Some bounds /\
    store w1 `prefix_of` store final /\
    length (store final) = S (length (store w1)).
Proof.
  cbn zeta. rewrite metadataSuccess_result. eexists. split; [done|]. cbn.
  pose proof (lookup_lt_Some _ _ _ Hbounds) as Hlt.
  repeat split.
  - lia.
  - by apply lookup_app_l_Some.
  - by apply prefix_app_r.
  - rewrite length_app. cbn. lia.
Qed.

(** X13: the rectangle of the configuration is not outside the bounds
    allowed by the tiling scheme: for none of its edges does the test of
    lines 205-216 hold any more. *)
Theorem clamped_not_beyond_bounds :
  let final := (metadataSuccess options url_ grant xml w).2 in
  exists c clamped,
    deferred final = (deferred w1 ++ [Resolved c])%list /\
    store final !! cfgRectangle c = Some clamped /\
    PrimFloat.ltb (west clamped) (west bounds) = false /\
    gtb (east clamped) (east bounds) = false /\
    PrimFloat.ltb (south clamped) (south bounds) = false /\
    gtb (north clamped) (north bounds) = false.
Proof.
  cbn zeta. rewrite metadataSuccess_result. eexists _, _.
  split; [done|]. cbn. split; [by rewrite list_lookup_middle|].
  unfold gtb, clampEdges; cbn.
  repeat split.
  - destruct (PrimFloat.ltb (west start) (west bounds)) eqn:E;
      [apply ltb_irreflexive|done].
  - destruct (PrimFloat.ltb (east bounds) (east start)) eqn:E;
      [apply ltb_irreflexive|done].
  - destruct (PrimFloat.ltb (south start) (south bounds)) eqn:E;
      [apply ltb_irreflexive|done].
  - destruct (PrimFloat.ltb (north bounds) (north start)) eqn:E;
      [apply ltb_irreflexive|done].
Qed.

End SuccessConfiguration.

(** *** The tiling scheme and the rejection *)


Lemma chooseTilingScheme_rejects (s0 : list Rectangle) (d : list Completion)
    (q : list string) (o : Options) (u : string) (grant : bool)
    (name : option string) :
  triple (Quiet s0 d q) (chooseTilingScheme o u grant name)
    (fun out w => match out with
                  | Returned (Some _) => Quiet s0 d q w
                  | Returned None =>
                      tilingScheme o = None /\
                      if grant then deferred w = d
                      else exists message,
                        deferred w = (d ++ [Rejected message])%list /\
                        last (errorEvent w) = Some message
                  | Thrown _ => False
                  end).
Proof.
  unfold chooseTilingScheme.
  destruct (tilingScheme o) as [t|]; [by apply triple_ret|].
  case_match.
  { intros w (Hs & Hd & Hq). cbn. split; [by apply prefix_app_r|done]. }
  case_match.
  { intros w (Hs & Hd & Hq). cbn. split; [by apply prefix_app_r|done]. }
  intros w (Hs & Hd & Hq).
  unfold TileProviderError_handleError, requestMetadata, request, bind. cbn.
  destruct grant; cbn; (split; [done|]); [done|].
  eexists. rewrite Hd. split; [done|]. apply last_snoc.
Qed.

(** What the success closure does to the deferred: nothing, or it resolves
    it, or it rejects it with the message it has just reported. *)
Lemma metadataSuccess_completions (s0 : list Rectangle) (d : list Completion)
    (q : list string) (o : Options) (u : string) (grant : bool)
    (xml : Document) :
  triple (Quiet s0 d q) (metadataSuccess o u grant xml)
    (fun _ w =>
       deferred w = d \/
       (exists c, deferred w = (d ++ [Resolved c])%list) \/
       (exists message,
          deferred w = (d ++ [Rejected message])%list /\
          grant = false /\ tilingScheme o = None /\
          last (errorEvent w) = Some message)).
Proof.
  assert (Hq : forall w, Quiet s0 d q w ->
    deferred w = d \/
    (exists c, deferred w = (d ++ [Resolved c])%list) \/
    (exists message,
       deferred w = (d ++ [Rejected message])%list /\
       grant = false /\ tilingScheme o = None /\
       last (errorEvent w) = Some message)).
  { intros w HQ. left. apply HQ. }
  unfold metadataSuccess.
  do 5 (eapply triple_bind;
        [apply preserves_member|intros ?|by intros; apply Hq]).
  eapply triple_bind; [apply chooseTilingScheme_rejects| |by intros].
  intros [t|].
  2:{ apply triple_ret. intros w [Ht Hw]. destruct grant; [by left|].
      destruct Hw as (message & ? & ?). right; right. by exists message. }
  eapply triple_bind;
    [apply Rectangle_clone_quiet| |by intros ? ? [? ?]; apply Hq].
  intros clone.
  eapply triple_bind with
    (R := fun out w => Quiet s0 d q w /\
                       forall r, out = Returned r -> length s0 <= r).
  - destruct clone as [r|].
    + apply triple_ret. intros w [HQ Hr]. split; [done|].
      intros ? [= <-]. by apply Hr.
    + intros w [HQ _]. by apply deriveRectangle_quiet.
  - intros r. cbn beta. apply triple_pure. intros Hr.
    specialize (Hr r eq_refl).
    eapply triple_bind;
      [by apply clampRectangle_quiet|intros []|by intros; apply Hq].
    eapply triple_bind;
      [apply checkMinimumLevel_quiet|intros ?|by intros; apply Hq].
    intros w (Hs & Hd & Hr'). cbn. right; left. eexists. by rewrite Hd.
  - intros e w [HQ _]. by apply Hq.
Qed.

(** X16: the success closure rejects the deferred only when no retry is
    granted and no tiling-scheme override was given, and only with the
    message it has just reported on the error event. *)
Theorem rejection_only_after_report (o : Options) (u : string) (grant : bool)
    (xml : Document) (w : World) (message : string) :
  let final := (metadataSuccess o u grant xml w).2 in
  deferred final = (deferred w ++ [Rejected message])%list ->
  grant = false /\ tilingScheme o = None /\
  last (errorEvent final) = Some message.
Proof.
  cbn zeta. intros Hd.
  destruct (metadataSuccess_completions [] (deferred w) (requested w) o u grant
              xml w) as [Hd'|[[c Hd']|(m & Hd' & ? & ? & ?)]].
  - split; [apply prefix_nil|done].
  - rewrite Hd' in Hd. apply (f_equal length) in Hd.
    rewrite length_app in Hd. cbn in Hd. lia.
  - rewrite Hd' in Hd. by apply app_inj_tail in Hd as [_ ?].
  - rewrite Hd' in Hd. apply app_inj_tail in Hd as [_ [= ->]]. done.
Qed.

(** X14: the flip flag does nothing but exchange the roles of the X and Y
    attributes: deriving with the flag from a bounding box gives what
    deriving without it gives from a box whose X and Y attributes are
    exchanged. *)
Theorem flip_exchanges_roles (o o' : Options) (box box' : Node)
    (profile : option string) (t : TilingScheme) (w : World) :
  flipXY o = Some true ->
  defaultValue (flipXY o') false = false ->
  getAttribute box' "minx" = getAttribute box "miny" ->
  getAttribute box' "miny" = getAttribute box "minx" ->
  getAttribute box' "maxx" = getAttribute box "maxy" ->
  getAttribute box' "maxy" = getAttribute box "maxx" ->
  deriveRectangle o (Some box) profile t w =
  deriveRectangle o' (Some box') profile t w.
Proof.
  intros Ho Ho' H1 H2 H3 H4. rewrite !deriveRectangle_eq.
  unfold boundingBoxRectangle. rewrite Ho, Ho', H1, H2, H3, H4. done.
Qed.

End Further.

(** ** The statements on explicit inputs *)

Import Fixture.
#[local] Existing Instance collaborators.

(** C1 as stated fails: the document arrives, it has no format section,
    the success closure raises, and the deferred is never completed. *)
Lemma deferred_left_pending :
  deferred (run (Some options) [loaded (documentWithoutFormat "mercator")] []).2 = [] /\
  length (deferred
            (run (Some options) [loaded (documentWithoutFormat "mercator")] []).2)
    <> 1.
Proof. split; [reflexivity|exact (Nat.neq_0_succ 0)]. Qed.



(** The complete Mercator document resolves the deferred once. *)
Lemma deferred_completed_once_witness :
  length (deferred (run (Some options) [loaded (document "mercator")] []).2) = 1.
Proof.
  exact (proj2 (deferred_completed_once options address
                  [loaded (document "mercator")] [] eq_refl)
           (loaded (document "mercator")) [] eq_refl eq_refl eq_refl).
Defined.

(** A failed request with no override gives the defaults. *)
Lemma fallback_configuration_witness :
  let t := schemeObject false mercatorMath 0 in
  let final := (run (Some options) [failed] []).2 in
  (run (Some options) [failed] []).1 = Returned tt /\
  deferred final =
    [Resolved
       {| cfgUrl := "http://host/tiles/{z}/{x}/{reverseY}.png";
          cfgTilingScheme := t;
          cfgRectangle := 0;
          cfgTileWidth := 256%float;
          cfgTileHeight := 256%float;
          cfgMinimumLevel := 0%float;
          cfgMaximumLevel := None;
          cfgProxy := None;
          cfgTileDiscardPolicy := None;
          cfgCredit := None |}] /\
  errorEvent final = [] /\
  (tilingScheme options = None -> store final !! 0 = Some mercatorRectangle).
Proof.
  exact (fallback_configuration options address failed [] [] eq_refl eq_refl).
Defined.

(** A failed request with a rectangle wider than the scheme's and minimum
    level 5, at which the rectangle spans more than four tiles: both go
    into the configuration as they are. *)
Lemma fallback_overrides_verbatim_witness :
  (PrimFloat.ltb (west wide) (west mercatorRectangle) = true /\
   heuristicMinimumLevel (schemeObject false mercatorMath 1)
     (clampEdges mercatorRectangle wide) 5 = Some 0%float) /\
  exists c, deferred (run (Some optionsWithOverrides) [failed] [wide]).2
            = [Resolved c] /\
            cfgRectangle c = 0 /\
            store (run (Some optionsWithOverrides) [failed] [wide]).2 !! 0
            = Some wide /\
            cfgMinimumLevel c = 5%float.
Proof.
  split; [split; reflexivity|].
  exact (fallback_overrides_verbatim optionsWithOverrides address failed [] [wide]
           0 wide 5 eq_refl eq_refl eq_refl eq_refl eq_refl).
Defined.

(** The caller's wide rectangle after the complete Mercator document. *)
Lemma caller_rectangle_not_mutated_witness :
  let final :=
    (run (Some optionsWithOverrides) [loaded (document "mercator")] [wide]).2 in
  store final !! 0 = Some wide /\
  forall a xml c, [loaded (document "mercator")] = [a] -> response a = Loaded xml ->
    Resolved c ∈ deferred final -> cfgRectangle c <> 0.
Proof.
  exact (caller_rectangle_not_mutated optionsWithOverrides address
           [loaded (document "mercator")] [wide] 0 wide eq_refl eq_refl eq_refl).
Defined.




(** The complete Mercator document with the caller's wide rectangle: all
    four edges are pulled in to the scheme's. *)
Lemma rectangle_clamped_to_scheme_witness :
  clampEdges mercatorRectangle wide = mercatorRectangle /\
  let final := (metadataSuccess optionsWithOverrides address false
                  (document "mercator") (initialWorld [wide])).2 in
  exists c clamped,
    deferred final = [Resolved c] /\
    store final !! cfgRectangle c = Some clamped /\
    west clamped = (if PrimFloat.ltb (west wide) (west mercatorRectangle)
                    then west mercatorRectangle else west wide) /\
    east clamped = (if gtb (east wide) (east mercatorRectangle)
                    then east mercatorRectangle else east wide) /\
    south clamped = (if PrimFloat.ltb (south wide) (south mercatorRectangle)
                     then south mercatorRectangle else south wide) /\
    north clamped = (if gtb (north wide) (north mercatorRectangle)
                     then north mercatorRectangle else north wide).
Proof.
  split; [reflexivity|].
  exact (rectangle_clamped_to_scheme optionsWithOverrides address false
           (document "mercator") (initialWorld [wide])
           (withStore (initialWorld [wide]) [wide; mercatorRectangle])
           (rootElement "mercator") tileFormat (tileSet "2") (tileSet "9")
           (twoTileSets "mercator") (schemeObject false mercatorMath 1)
           mercatorRectangle wide 0%float
           eq_refl eq_refl eq_refl eq_refl eq_refl eq_refl eq_refl eq_refl
           eq_refl).
Defined.

(** The complete Mercator document: the bounding box is read as degrees,
    X as longitude; under the flip flag X is read as latitude. *)
Lemma rectangle_from_bounding_box_witness :
  let t := schemeObject false mercatorMath 0 in
  let w1 := withStore (initialWorld []) [mercatorRectangle] in
  let derived := boundingBoxRectangle false boundingBox (Some "mercator") t in
  let final := (metadataSuccess options address false
                  (document "mercator") (initialWorld [])).2 in
  (derived = {| west := longitude (fromDegrees (-120) 20);
                south := latitude (fromDegrees (-120) 20);
                east := longitude (fromDegrees (-60) 40);
                north := latitude (fromDegrees (-60) 40) |} /\
   boundingBoxRectangle true boundingBox (Some "mercator") t =
     {| west := longitude (fromDegrees 20 (-120));
        south := latitude (fromDegrees 20 (-120));
        east := longitude (fromDegrees 40 (-60));
        north := latitude (fromDegrees 40 (-60)) |}) /\
  deriveRectangle options (Some boundingBox) (Some "mercator") t w1 =
    (Returned 1, withStore w1 [mercatorRectangle; derived]) /\
  exists c,
    deferred final = [Resolved c] /\
    store final !! cfgRectangle c = Some (clampEdges mercatorRectangle derived).
Proof.
  split; [split; reflexivity|].
  exact (rectangle_from_bounding_box options address false
           (document "mercator") (initialWorld [])
           (withStore (initialWorld []) [mercatorRectangle])
           (rootElement "mercator") tileFormat (tileSet "2") (tileSet "9")
           (twoTileSets "mercator") (schemeObject false mercatorMath 0)
           mercatorRectangle
           (boundingBoxRectangle false boundingBox (Some "mercator")
              (schemeObject false mercatorMath 0))
           2%float eq_refl eq_refl eq_refl eq_refl eq_refl eq_refl eq_refl
           eq_refl eq_refl boundingBox eq_refl eq_refl).
Defined.

(** ** The further properties on explicit inputs *)

Lemma tileset_entries_have_container_witness :
  (exists container,
     tilesets (documentScan (rootElement "mercator")) = Some container /\
     In container (childNodes (rootElement "mercator"))) /\
  forall entry, In entry (tilesetsList (documentScan (rootElement "mercator"))) ->
    exists container, In container (childNodes (rootElement "mercator")) /\
                      In entry (childNodes container).
Proof.
  apply (tileset_entries_have_container (rootElement "mercator")).
  intros Hc; discriminate Hc.
Defined.

Lemma missing_url_throws_witness :
  run None [failed] [wide] =
  (Thrown (DeveloperError "options.url is required."), initialWorld [wide]).
Proof. exact (missing_url_throws None [failed] [wide] eq_refl). Defined.

Lemma missing_section_raises_witness :
  metadataSuccess optionsWithOverrides address true
    (documentWithoutFormat "mercator") (initialWorld [wide]) =
  (Thrown TypeError, initialWorld [wide]).
Proof.
  apply (missing_section_raises optionsWithOverrides address true
           (documentWithoutFormat "mercator") (initialWorld [wide])).
  left. reflexivity.
Defined.

Lemma missing_bounding_box_raises_witness :
  let w1 := withStore (initialWorld []) [mercatorRectangle] in
  metadataSuccess options address false
    (documentWithoutBoundingBox "mercator") (initialWorld []) =
  (Thrown TypeError, w1) /\
  deferred w1 = [] /\ requested w1 = [] /\ errorEvent w1 = [] /\
  [] `prefix_of` store w1.
Proof.
  exact (missing_bounding_box_raises options address false
           (documentWithoutBoundingBox "mercator") (initialWorld [])
           (withStore (initialWorld []) [mercatorRectangle])
           (rootWithoutBoundingBox "mercator") tileFormat (tileSet "2")
           (twoTileSets "mercator") (schemeObject false mercatorMath 0)
           eq_refl eq_refl eq_refl eq_refl eq_refl eq_refl eq_refl).
Defined.

Lemma raising_closure_leaves_pending_witness :
  let script := [loaded (documentWithoutFormat "mercator"); failed] in
  (run (Some options) script []).1 = Returned tt /\
  deferred (run (Some options) script []).2 = [] /\
  requested (run (Some options) script []).2 = [resourceUrl options address] /\
  [] `prefix_of` store (run (Some options) script []).2.
Proof.
  exact (raising_closure_leaves_pending options address
           (loaded (documentWithoutFormat "mercator")) [failed] []
           (documentWithoutFormat "mercator") TypeError eq_refl eq_refl eq_refl).
Defined.



Lemma retries_then_failure_witness :
  let retries := [(document "foo", Some "foo"); (document "bar", Some "bar")] in
  let script := map (fun r => grantedRetry r.1) retries in
  let messages := map (fun r => unsupportedProfileMessage address r.2) retries in
  let pending := (run (Some options) script []).2 in
  let final := (run (Some options) (script ++ [failed]) []).2 in
  (deferred pending = [] /\ errorEvent pending = messages /\
   requested pending = replicate 3 (resourceUrl options address)) /\
  (deferred final = [Resolved (fallbackConfiguration options address 0)] /\
   errorEvent final = messages /\
   requested final = replicate 3 (resourceUrl options address) /\
   store final = [mercatorRectangle]).
Proof.
  refine (retries_then_failure options address
            [(document "foo", Some "foo"); (document "bar", Some "bar")]
            failed [] [] eq_refl eq_refl _ eq_refl).
  repeat constructor.
  - exists (rootElement "foo"), tileFormat, (tileSet "2"), (twoTileSets "foo").
    repeat split; try reflexivity. intros [Hc|[Hc|[Hc|Hc]]]; discriminate Hc.
  - exists (rootElement "bar"), tileFormat, (tileSet "2"), (twoTileSets "bar").
    repeat split; try reflexivity. intros [Hc|[Hc|[Hc|Hc]]]; discriminate Hc.
Defined.

Lemma success_configuration_fields_witness :
  let final := (metadataSuccess options address false
                  (document "mercator") (initialWorld [])).2 in
  exists c,
    deferred final = [Resolved c] /\
    cfgTilingScheme c = schemeObject false mercatorMath 0 /\
    cfgTileWidth c = 256%float /\
    cfgTileHeight c = 256%float /\
    cfgMaximumLevel c = Some 9%float /\
    cfgUrl c = "http://host/tiles/{z}/{x}/{reverseY}.png" /\
    cfgProxy c = None /\
    cfgTileDiscardPolicy c = None /\
    cfgCredit c = None.
Proof.
  exact (success_configuration_fields options address false
           (document "mercator") (initialWorld [])
           (withStore (initialWorld []) [mercatorRectangle])
           (rootElement "mercator") tileFormat (tileSet "2") (tileSet "9")
           (twoTileSets "mercator") (schemeObject false mercatorMath 0)
           mercatorRectangle
           (boundingBoxRectangle false boundingBox (Some "mercator")
              (schemeObject false mercatorMath 0))
           2%float eq_refl eq_refl eq_refl eq_refl eq_refl eq_refl eq_refl
           eq_refl eq_refl).
Defined.

Lemma scheme_rectangle_untouched_witness :
  let final := (metadataSuccess optionsWithOverrides address false
                  (document "mercator") (initialWorld [wide])).2 in
  exists c,
    deferred final = [Resolved c] /\
    cfgRectangle c <> rectangleOf (cfgTilingScheme c) /\
    store final !! rectangleOf (cfgTilingScheme c) = Some mercatorRectangle /\
    [wide; mercatorRectangle] `prefix_of` store final /\
    length (store final) = 3.
Proof.
  exact (scheme_rectangle_untouched optionsWithOverrides address false
           (document "mercator") (initialWorld [wide])
           (withStore (initialWorld [wide]) [wide; mercatorRectangle])
           (rootElement "mercator") tileFormat (tileSet "2") (tileSet "9")
           (twoTileSets "mercator") (schemeObject false mercatorMath 1)
           mercatorRectangle wide 0%float
           eq_refl eq_refl eq_refl eq_refl eq_refl eq_refl eq_refl eq_refl
           eq_refl).
Defined.

Lemma clamped_not_beyond_bounds_witness :
  let final := (metadataSuccess optionsWithOverrides address false
                  (document "mercator") (initialWorld [wide])).2 in
  exists c clamped,
    deferred final = [Resolved c] /\
    store final !! cfgRectangle c = Some clamped /\
    PrimFloat.ltb (west clamped) (west mercatorRectangle) = false /\
    gtb (east clamped) (east mercatorRectangle) = false /\
    PrimFloat.ltb (south clamped) (south mercatorRectangle) = false /\
    gtb (north clamped) (north mercatorRectangle) = false.
Proof.
  exact (clamped_not_beyond_bounds optionsWithOverrides address false
           (document "mercator") (initialWorld [wide])
           (withStore (initialWorld [wide]) [wide; mercatorRectangle])
           (rootElement "mercator") tileFormat (tileSet "2") (tileSet "9")
           (twoTileSets "mercator") (schemeObject false mercatorMath 1)
           mercatorRectangle wide 0%float
           eq_refl eq_refl eq_refl eq_refl eq_refl eq_refl eq_refl eq_refl
           eq_refl).
Defined.

Lemma flip_exchanges_roles_witness :
  deriveRectangle flippedOptions (Some boundingBox) (Some "mercator")
    (schemeObject false mercatorMath 0) (initialWorld []) =
  deriveRectangle options (Some exchangedBoundingBox) (Some "mercator")
    (schemeObject false mercatorMath 0) (initialWorld []).
Proof.
  exact (flip_exchanges_roles flippedOptions options boundingBox
           exchangedBoundingBox (Some "mercator")
           (schemeObject false mercatorMath 0) (initialWorld [])
           eq_refl eq_refl eq_refl eq_refl eq_refl eq_refl).
Defined.


Lemma rejection_only_after_report_witness :
  let message :=
    "http://host/tiles/tilemapresource.xmlspecifies an unsupported profile attribute, foo." in
  false = false /\ tilingScheme options = None /\
  last (errorEvent (metadataSuccess options address false (document "foo")
                      (initialWorld [])).2) = Some message.
Proof.
  exact (rejection_only_after_report options address false (document "foo")
           (initialWorld [])
           "http://host/tiles/tilemapresource.xmlspecifies an unsupported profile attribute, foo."
           eq_refl).
Defined.
